(** * state_income_tax.ingest: a shallow embedding of the row-block parser

  The development follows [src/state_income_tax/ingest.py] function by
  function.  Python values are an inductive type, exceptions are an
  error monad, worksheet rows are lists of cells (an [openpyxl] cell is
  either a [Cell] carrying a value or a [MergedCell], whose value is
  always [None]), result dictionaries are insertion-ordered association
  lists and the name table [STATE_CODE_MAP], which lives in the
  [constants] module, is a finite map taken as a parameter. *)

From Stdlib Require Import ZArith NArith List Bool Ascii String Lia.
From Stdlib Require Import Floats.PrimFloat.
From stdpp Require Import base option list gmap strings.

Open Scope string_scope.
Open Scope list_scope.

(** ** Python text

  A [str] is modelled by a Rocq [string] whose characters are read as the
  code points 0..255. *)

Module PyStr.

Definition code (c : ascii) : N := N_of_ascii c.

(** [str.lower] on one code point: A-Z, and the Latin-1 capitals
    U+00C0..U+00DE except the multiplication sign U+00D7. *)
Definition lower_char (c : ascii) : ascii :=
  let n := code c in
  if ((65 <=? n) && (n <=? 90))%N then ascii_of_N (n + 32)
  else if ((192 <=? n) && (n <=? 222) && negb (n =? 215))%N
       then ascii_of_N (n + 32)
  else c.

Fixpoint lower (s : string) : string :=
  match s with
  | EmptyString => EmptyString
  | String c s' => String (lower_char c) (lower s')
  end.

(** [str.isspace] on one code point. *)
Definition isspace (c : ascii) : bool :=
  let n := code c in
  (((9 <=? n) && (n <=? 13)) || ((28 <=? n) && (n <=? 32))
   || (n =? 133) || (n =? 160))%N.

Fixpoint lstrip (s : string) : string :=
  match s with
  | EmptyString => EmptyString
  | String c s' => if isspace c then lstrip s' else s
  end.

(** Drops trailing white space: a character is kept when something that
    is kept follows it, or when it is not white space itself. *)
Fixpoint rstrip (s : string) : string :=
  match s with
  | EmptyString => EmptyString
  | String c s' =>
      match rstrip s' with
      | EmptyString => if isspace c then EmptyString else String c EmptyString
      | r => String c r
      end
  end.

(** [s.strip()] *)
Definition strip (s : string) : string := rstrip (lstrip s).

(** [s.replace(old, new)] for a non-empty [old]: occurrences are replaced
    from the left and do not overlap.  [skip] counts the characters of
    the occurrence just replaced that are still to be passed over. *)
Fixpoint replace_from (old new : string) (skip : nat) (s : string) : string :=
  match s with
  | EmptyString => EmptyString
  | String c s' =>
      match skip with
      | S k => replace_from old new k s'
      | O =>
          if String.prefix old s
          then new ++ replace_from old new (String.length old - 1) s'
          else String c (replace_from old new 0 s')
      end
  end.

Definition replace (old new s : string) : string := replace_from old new 0 s.

(** [sub in s] for a non-empty [sub]. *)
Fixpoint contains (sub s : string) : bool :=
  match s with
  | EmptyString => false
  | String _ s' => String.prefix sub s || contains sub s'
  end.

(** [s.split(sep)] for a one-character separator: the pieces between the
    separators, always at least one piece. *)
Fixpoint split (sep : ascii) (s : string) : list string :=
  match s with
  | EmptyString => [EmptyString]
  | String c s' =>
      if Ascii.eqb c sep then EmptyString :: split sep s'
      else match split sep s' with
           | p :: ps => String c p :: ps
           | [] => [String c EmptyString]
           end
  end.

Definition is_digit (c : ascii) : bool :=
  ((48 <=? code c) && (code c <=? 57))%N.

Definition digit_val (c : ascii) : Z := Z.of_N (code c) - 48.

(** The digits of a decimal literal as [int] accepts them: one or more
    digits, single underscores allowed between two digits.  [prev] tells
    whether the previous character was a digit. *)
Fixpoint digits (acc : Z) (prev : bool) (s : string) : option Z :=
  match s with
  | EmptyString => if prev then Some acc else None
  | String c s' =>
      if is_digit c then digits (10 * acc + digit_val c) true s'
      else if Ascii.eqb c "_" then
             (if prev then
                match s' with
                | String d _ => if is_digit d then digits acc false s' else None
                | EmptyString => None
                end
              else None)
      else None
  end.

(** [int(s)] in base ten: surrounding white space, an optional sign, the
    digits.  [None] stands for [ValueError].  (The interpreter's limit on
    the number of digits of a literal is not modelled.) *)
Definition parse_int (s : string) : option Z :=
  match strip s with
  | String "-" r => Z.opp <$> digits 0 false r
  | String "+" r => digits 0 false r
  | r => digits 0 false r
  end.

End PyStr.

(** ** Python values, exceptions and dictionaries *)

(** The values the parser meets: what a cell can hold ([None], [bool],
    [int], [float], [str]) and what it builds (lists and dictionaries with
    text keys, in insertion order). *)
#[warnings="-register-all"]
Inductive pyval : Type :=
| VNone : pyval
| VBool : bool -> pyval
| VInt : Z -> pyval
| VFloat : float -> pyval
| VStr : string -> pyval
| VList : list pyval -> pyval
| VDict : list (string * pyval) -> pyval.

(** The truth value of an object, as [if v], [not v] and [any] take it. *)
Definition truthy (v : pyval) : bool :=
  match v with
  | VNone => false
  | VBool b => b
  | VInt z => negb (z =? 0)%Z
  | VFloat f => negb (PrimFloat.eqb f 0%float)
  | VStr s => negb (String.eqb s "")
  | VList l => match l with [] => false | _ => true end
  | VDict d => match d with [] => false | _ => true end
  end.

(** [isinstance(v, int)]: [bool] is a subclass of [int], [float] is not. *)
Definition is_int (v : pyval) : bool :=
  match v with
  | VInt _ | VBool _ => true
  | _ => false
  end.

Inductive exn : Type :=
| IndexError | TypeError | AttributeError | ValueError | KeyError
| SystemExit (status : Z).

Inductive result (A : Type) : Type :=
| Ok : A -> result A
| Raise : exn -> result A.

Arguments Ok {A} _.
Arguments Raise {A} _.

#[global] Instance result_ret : MRet result := fun A a => Ok a.

#[global] Instance result_bind : MBind result := fun A B k m =>
  match m with
  | Ok a => k a
  | Raise e => Raise e
  end.

(** [xs[i]] on a tuple or list, for [i >= 0]. *)
Definition index {A : Type} (xs : list A) (i : nat) : result A :=
  match xs !! i with
  | Some x => Ok x
  | None => Raise IndexError
  end.

(** A [dict] with text keys, in insertion order. *)
Module Dict.

Definition t : Type := list (string * pyval).

Fixpoint get (d : t) (k : string) : option pyval :=
  match d with
  | [] => None
  | (k', v) :: d' => if String.eqb k' k then Some v else get d' k
  end.

(** [d[k] = v]: an existing key keeps its place. *)
Fixpoint set (d : t) (k : string) (v : pyval) : t :=
  match d with
  | [] => [(k, v)]
  | (k', v') :: d' =>
      if String.eqb k' k then (k', v) :: d' else (k', v') :: set d' k v
  end.

Definition keys (d : t) : list string := map fst d.

(** [d[k]] *)
Definition item (d : t) (k : string) : result pyval :=
  match get d k with
  | Some v => Ok v
  | None => Raise KeyError
  end.

End Dict.

(** ** Worksheet cells *)

(** [openpyxl.cell.cell.Cell] and [openpyxl.cell.cell.MergedCell]. *)
Inductive cell : Type :=
| Cell (value : pyval)
| MergedCell.

(** [c.value]: a merged cell has no value of its own. *)
Definition value (c : cell) : pyval :=
  match c with
  | Cell v => v
  | MergedCell => VNone
  end.

(** [isinstance(c, openpyxl.cell.cell.MergedCell)] *)
Definition is_merged (c : cell) : bool :=
  match c with
  | MergedCell => true
  | Cell _ => false
  end.

Definition row : Type := list cell.

(** A loop whose body may raise: [for x in xs: acc = step(acc, x)]. *)
Fixpoint for_each {A S : Type} (step : S -> A -> result S) (acc : S)
    (xs : list A) : result S :=
  match xs with
  | [] => Ok acc
  | x :: xs' => acc' ← step acc x; for_each step acc' xs'
  end.

(** ** The parser *)

Section Ingest.

(** [STATE_CODE_MAP] of the [constants] module: lower-case state name to
    two-letter code. *)
Variable STATE_CODE_MAP : gmap string string.

(** [value.lower().replace(".", "").split("(")[0]] *)
Definition safe_value (s : string) : string :=
  hd "" (PyStr.split "(" (PyStr.replace "." "" (PyStr.lower s))).

Definition get_state_code (v : pyval) : result string :=
  if negb (truthy v) then Ok ""
  else match v with
       | VStr s => Ok (default "" (STATE_CODE_MAP !! safe_value s))
       | _ => Raise AttributeError
       end.

(** The dictionary [{"value": v, "credit": c}]. *)
Definition entry (v : pyval) (c : bool) : pyval :=
  VDict [("value", v); ("credit", VBool c)].

Definition clean_deduction (v : pyval) : result pyval :=
  if is_int v then Ok (entry v false)
  else if negb (truthy v) then Ok (entry VNone false)
  else match v with
       | VStr s =>
           if String.eqb
                (PyStr.replace "." "" (PyStr.strip (PyStr.lower s))) "na"
           then Ok (entry VNone false)
           else if PyStr.contains "credit" (PyStr.lower s) then
             let s' := PyStr.strip
                         (PyStr.replace "," ""
                            (PyStr.replace "$" ""
                               (PyStr.replace "credit" "" s))) in
             match PyStr.parse_int s' with
             | Some z => Ok (entry (VInt z) true)
             | None => Raise ValueError
             end
           else Ok (entry (VStr s) false)
       | _ => Raise AttributeError
       end.

(** [clean_deduction(row[i].value)] *)
Definition deduction_at (r : row) (i : nat) : result pyval :=
  c ← index r i; clean_deduction (value c).

Definition extract_deductions (r : row) : result pyval :=
  s_single ← deduction_at r 7;
  s_married ← deduction_at r 8;
  p_single ← deduction_at r 9;
  p_married ← deduction_at r 10;
  p_dependant ← deduction_at r 11;
  let standard_deductions :=
    VDict [("single", s_single); ("married", s_married)] in
  let personal_exemptions :=
    VDict [("single", p_single); ("married", p_married);
           ("dependant", p_dependant)] in
  Ok (VDict [("standard_deductions", standard_deductions);
             ("personal_exemptions", personal_exemptions)]).

Definition extract_codes (r : row) : result (list pyval) :=
  c0 ← index r 0;
  match value c0 with
  | VStr s =>
      if PyStr.contains "(" s then
        piece ← index (PyStr.split "(" s) 1;
        let code_str := PyStr.replace ")" "" piece in
        Ok (map (fun code => VStr (PyStr.strip code))
              (PyStr.split "," code_str))
      else Ok []
  | _ => Ok []
  end.

(** The notes of one row: [cell.value for cell in row[12:] if cell.value]. *)
Definition row_notes (r : row) : list pyval :=
  List.filter truthy (map value (drop 12 r)).

(** The body of the loop of [extract_notes]; the row is [None] when the
    caller had no second row to pass, and slicing [None] raises. *)
Definition notes_step (acc : list pyval * list pyval) (r : option row)
    : result (list pyval * list pyval) :=
  match r with
  | None => Raise TypeError
  | Some r =>
      let notes := acc.1 ++ row_notes r in
      codes ← extract_codes r;
      Ok (notes, acc.2 ++ codes)
  end.

Definition extract_notes (row1 : row) (row2 : option row)
    : result (list pyval * list pyval) :=
  for_each notes_step ([], []) [Some row1; row2].

Definition key_cols : list nat := [1; 3; 4; 6].

(** [[x.value for idx, x in enumerate(row) if idx in key_cols]] *)
Definition key_values (r : row) : list pyval :=
  map (fun p => value p.2)
    (filter (fun p => p.1 ∈ key_cols) (imap (fun idx x => (idx, x)) r)).

Definition bracket (rate start_value : pyval) : pyval :=
  VDict [("rate", rate); ("start_value", start_value)].

(** The body of the loop over the rows in the standard branch of
    [process_state]. *)
Definition bracket_step (acc : list pyval * list pyval) (r : row)
    : result (list pyval * list pyval) :=
  if existsb truthy (key_values r) then
    c1 ← index r 1;
    c3 ← index r 3;
    let single := acc.1 ++ [bracket (value c1) (value c3)] in
    c4 ← index r 4;
    c6 ← index r 6;
    Ok (single, acc.2 ++ [bracket (value c4) (value c6)])
  else Ok acc.

Definition process_state (rows : list row) : result (string * Dict.t) :=
  r0 ← index rows 0;
  c0 ← index r0 0;
  state_code ← get_state_code (value c0);
  deductions ← extract_deductions r0;
  row2 ← (if (1 <? List.length rows)%nat
          then r1 ← index rows 1; Ok (Some r1)
          else Ok None);
  '(notes, note_codes) ← extract_notes r0 row2;
  c2 ← index r0 2;
  if is_merged c2 then
    c1 ← index r0 1;
    let notes := notes ++ [value c1] in
    Ok (state_code,
        [("single", VList []); ("married", VList []);
         ("notes", VList notes); ("note_codes", VList note_codes);
         ("deductions", deductions)])
  else
    '(single, married) ← for_each bracket_step ([], []) rows;
    Ok (state_code,
        [("single", VList single); ("married", VList married);
         ("note_codes", VList note_codes); ("notes", VList notes);
         ("deductions", deductions)]).

(** The loop of [process_sheet] over the rows still to come, from the
    dictionary [states] and the accumulator [state_rows]; it returns
    both as they are when the loop is left, by [break] or at the end. *)
Fixpoint scan_rows (rows : list row) (states : Dict.t)
    (state_rows : list row) : result (Dict.t * list row) :=
  match rows with
  | [] => Ok (states, state_rows)
  | r :: rest =>
      c1 ← index r 1;
      if is_merged c1 then Ok (states, state_rows)
      else
        colA ← index r 0;
        state_code ← get_state_code (value colA);
        if negb (String.eqb state_code "") then
          states' ← match state_rows with
                    | [] => Ok states
                    | _ =>
                        '(state, data) ← process_state state_rows;
                        Ok (Dict.set states state (VDict data))
                    end;
          scan_rows rest states' [r]
        else scan_rows rest states (state_rows ++ [r])
  end.

(** [process_sheet]; the text printed for Maryland's record is not
    modelled, the lookup that feeds it is. *)
Definition process_sheet (sheet : list row) : result Dict.t :=
  '(states, _) ← scan_rows sheet [] [];
  _ ← Dict.item states "MD";
  Ok states.

End Ingest.

(** ** The year driver *)

(** A workbook: its worksheets in order, each with its title. *)
Definition workbook : Type := list (string * list row).

(** [wb.sheetnames] *)
Definition sheetnames (wb : workbook) : list string := map fst wb.

(** [wb[name]]: the first worksheet with that title. *)
Fixpoint getitem (wb : workbook) (name : string) : result (list row) :=
  match wb with
  | [] => Raise KeyError
  | (title, sheet) :: wb' =>
      if String.eqb title name then Ok sheet else getitem wb' name
  end.

(** [len(name) == 4 and name.startswith("20")] *)
Definition looks_like_year (name : string) : bool :=
  (String.length name =? 4)%nat && String.prefix "20" name.

(** [names.sort(reverse=True)]: a stable sort into descending order. *)
Fixpoint insert_desc (x : string) (l : list string) : list string :=
  match l with
  | [] => [x]
  | y :: l' => if String.leb y x then x :: l else y :: insert_desc x l'
  end.

Fixpoint sort_desc (l : list string) : list string :=
  match l with
  | [] => []
  | x :: l' => insert_desc x (sort_desc l')
  end.

(** [main], from the loaded workbook to the dictionary handed to
    [write_json].  The body of the loop over [names] ends in [break], so it
    runs for the first name only. *)
Definition main (STATE_CODE_MAP : gmap string string) (wb : workbook)
    : result Dict.t :=
  let names := sort_desc (List.filter looks_like_year (sheetnames wb)) in
  match names with
  | [] => Raise (SystemExit 1)
  | name :: _ =>
      sheet ← getitem wb name;
      states ← process_sheet STATE_CODE_MAP sheet;
      Ok (Dict.set [] name (VDict states))
  end.

(** ** Sample data *)

Module Sample.

Definition table : gmap string string :=
  list_to_map [("alabama", "AL"); ("alaska", "AK"); ("maryland", "MD")].

Definition blank : cell := Cell VNone.

(** A twelve-column data row followed by one notes column. *)
Definition data_row (name rate note : pyval) : row :=
  [Cell name; Cell rate; Cell (VStr ">"); Cell (VInt 0);
   Cell rate; Cell (VStr ">"); Cell (VInt 0);
   Cell (VInt 2500); Cell (VInt 7500); Cell (VInt 1500); Cell (VInt 3000);
   Cell (VStr "$1,000 credit"); Cell note].

(** A row of a state without a rate table: columns 1 to 6 merged. *)
Definition merged_row (name text note : pyval) : row :=
  [Cell name; Cell text; MergedCell; MergedCell; MergedCell; MergedCell;
   MergedCell; Cell (VStr "n.a."); Cell (VStr "n.a."); Cell (VStr "n.a.");
   Cell (VStr "n.a."); Cell (VStr "n.a."); Cell note].

Definition empty_row : row := repeat blank 13.

(** The first row of the footer: column 1 continues a merged region. *)
Definition sentinel_row : row :=
  Cell (VStr "(a) Notes") :: repeat MergedCell 12.

Definition alabama : row := data_row (VStr "Alabama") (VFloat 0.5) VNone.
Definition alaska : row :=
  merged_row (VStr "Alaska") (VStr "No state income tax") (VStr "see (b)").
Definition maryland : row :=
  data_row (VStr "Maryland") (VFloat 0.25) (VStr "(a) local taxes").
Definition continuation : row := data_row VNone (VFloat 0.75) VNone.

End Sample.

(** ** Characters of a text *)

(** The character occurs in the text. *)
Fixpoint has_char (c : ascii) (s : string) : bool :=
  match s with
  | EmptyString => false
  | String d s' => Ascii.eqb d c || has_char c s'
  end.

(** The text without the occurrences of the character. *)
Fixpoint remove_char (c : ascii) (s : string) : string :=
  match s with
  | EmptyString => EmptyString
  | String d s' =>
      if Ascii.eqb d c then remove_char c s' else String d (remove_char c s')
  end.

(** The test for "not available" in the words of the specification: the
    text, with its periods removed and then trimmed, is "na" whatever its
    casing. *)
Definition spec_is_na (s : string) : bool :=
  String.eqb (PyStr.strip (PyStr.replace "." "" (PyStr.lower s))) "na".

(** ** Shapes of a state's record *)

Definition has_key (d : Dict.t) (k : string) : bool :=
  match Dict.get d k with
  | Some _ => true
  | None => false
  end.

(** The shape the specification gives a state's record (its section 3):
    six keys at the top level, the two deduction tables among them. *)
Definition spec_keys : list string :=
  ["single"; "married"; "standard_deductions"; "personal_exemptions";
   "notes"; "note_codes"].

Definition spec_shape (rec : Dict.t) : bool := forallb (has_key rec) spec_keys.

(** The shape [process_state] builds: five keys at the top level, the two
    deduction tables one level down, under "deductions". *)
Definition is_entry (v : pyval) : Prop := exists x c, v = entry x c.

Definition is_deductions (v : pyval) : Prop :=
  exists s_single s_married p_single p_married p_dependant,
    is_entry s_single /\ is_entry s_married /\ is_entry p_single
    /\ is_entry p_married /\ is_entry p_dependant
    /\ v = VDict
             [("standard_deductions",
               VDict [("single", s_single); ("married", s_married)]);
              ("personal_exemptions",
               VDict [("single", p_single); ("married", p_married);
                      ("dependant", p_dependant)])].

Definition record_shape (rec : Dict.t) : Prop :=
  exists single married notes note_codes deductions,
    is_deductions deductions
    /\ Dict.get rec "single" = Some (VList single)
    /\ Dict.get rec "married" = Some (VList married)
    /\ Dict.get rec "notes" = Some (VList notes)
    /\ Dict.get rec "note_codes" = Some (VList note_codes)
    /\ Dict.get rec "deductions" = Some deductions
    /\ Dict.keys rec
       ≡ₚ ["single"; "married"; "notes"; "note_codes"; "deductions"].

(** Two blocks of the sample sheet and the records extracted from them. *)
Definition maryland_block : list row := [Sample.maryland; Sample.continuation].

Definition alaska_block : list row := [Sample.alaska; Sample.empty_row].

Definition record_of (r : result (string * Dict.t)) : Dict.t :=
  match r with
  | Ok (_, rec) => rec
  | Raise _ => []
  end.

Definition maryland_record : Dict.t :=
  Eval vm_compute in record_of (process_state Sample.table maryland_block).

Definition alaska_record : Dict.t :=
  Eval vm_compute in record_of (process_state Sample.table alaska_block).

(** The sheet of the segmenter scenario: Alabama on two rows, Alaska on
    one, then the footer; and the same sheet with Maryland in the place of
    Alabama. *)
Definition footer_row : row :=
  Cell (VStr "(b) More notes") :: repeat MergedCell 12.

Definition scenario_sheet : list row :=
  [Sample.alabama; Sample.continuation; Sample.alaska; Sample.sentinel_row;
   footer_row].

Definition maryland_sheet : list row :=
  [Sample.maryland; Sample.continuation; Sample.alaska; Sample.sentinel_row;
   footer_row].

Definition states_of (r : result (Dict.t * list row)) : Dict.t :=
  match r with
  | Ok (states, _) => states
  | Raise _ => []
  end.

Definition scenario_states : Dict.t :=
  Eval vm_compute in states_of (scan_rows Sample.table scenario_sheet [] []).

Definition maryland_states : Dict.t :=
  Eval vm_compute in states_of (scan_rows Sample.table maryland_sheet [] []).

(** The codes of the state-start rows the loop of [process_sheet] meets
    before it is left, in the order of the rows. *)
Fixpoint started (tbl : gmap string string) (rows : list row) : list string :=
  match rows with
  | [] => []
  | r :: rest =>
      match index r 1, index r 0 with
      | Ok c1, Ok colA =>
          if is_merged c1 then []
          else match get_state_code tbl (value colA) with
               | Ok state_code =>
                   if negb (String.eqb state_code "")
                   then state_code :: started tbl rest
                   else started tbl rest
               | Raise _ => []
               end
      | _, _ => []
      end
  end.

(** The code [process_state] gives a block: the one its first row's first
    cell resolves to. *)
Definition block_code (tbl : gmap string string) (rows : list row)
    (k : string) : Prop :=
  exists r0 c0,
    rows !! 0 = Some r0 /\ r0 !! 0 = Some c0
    /\ get_state_code tbl (value c0) = Ok k.

(** The first cell of the row resolves to the code of Maryland. *)
Definition resolves_md (tbl : gmap string string) (r : row) : Prop :=
  exists c0, r !! 0 = Some c0 /\ get_state_code tbl (value c0) = Ok "MD".

(** A workbook with two year sheets and a sheet that is not a year. *)
Definition sample_workbook : workbook :=
  [("Notes", [footer_row]); ("2022", scenario_sheet); ("2023", maryland_sheet)].

(** ** Predicates on the characters of a text *)

(** Every character of the text passes the test. *)
Fixpoint all_char (p : ascii -> bool) (s : string) : bool :=
  match s with
  | EmptyString => true
  | String c s' => p c && all_char p s'
  end.

(** The character is not [c]. *)
Definition is_not (c : ascii) (d : ascii) : bool := negb (Ascii.eqb d c).

(** The character is its own lower case. *)
Definition is_lower (d : ascii) : bool := Ascii.eqb (PyStr.lower_char d) d.

(** A footnote code as [extract_codes] returns it: a text that is trimmed
    and has no parenthesis and no comma in it. *)
Definition is_clean_code (v : pyval) : Prop :=
  exists code,
    v = VStr code
    /\ PyStr.strip code = code
    /\ has_char "(" code = false
    /\ has_char ")" code = false
    /\ has_char "," code = false.

(** Some character of the text passes the test. *)
Fixpoint any_char (p : ascii -> bool) (s : string) : bool :=
  match s with
  | EmptyString => false
  | String c s' => p c || any_char p s'
  end.

(** The character is a letter c, small or capital. *)
Definition is_c (d : ascii) : bool := Ascii.eqb (PyStr.lower_char d) "c".

(** ** Data rows of a block *)

(** The value of the cell at an index of a row, [None] past its end. *)
Definition value_at (r : row) (i : nat) : pyval :=
  match r !! i with
  | Some c => value c
  | None => VNone
  end.

(** The test of the loop of [process_state]: some key column has a value. *)
Definition populated (r : row) : bool := existsb truthy (key_values r).

(** The brackets a data row gives. *)
Definition single_bracket (r : row) : pyval :=
  bracket (value_at r 1) (value_at r 3).

Definition married_bracket (r : row) : pyval :=
  bracket (value_at r 4) (value_at r 6).

(** ** Kinds of rows of a sheet *)

(** The row starts a state: its second cell is not merged and its first
    cell resolves to a code that is not empty. *)
Definition start_row (tbl : gmap string string) (r : row) (code : string)
    : Prop :=
  exists c1 colA,
    r !! 1 = Some c1 /\ is_merged c1 = false /\ r !! 0 = Some colA
    /\ get_state_code tbl (value colA) = Ok code /\ code <> "".

(** The row continues a block: its second cell is not merged and its first
    cell resolves to the empty code. *)
Definition continuation_row (tbl : gmap string string) (r : row) : Prop :=
  exists c1 colA,
    r !! 1 = Some c1 /\ is_merged c1 = false /\ r !! 0 = Some colA
    /\ get_state_code tbl (value colA) = Ok "".

(** What every entry of the dictionary of a sheet is: a record of the
    shape [process_state] builds, with as many single as married brackets,
    under a key that is empty or a code of the table. *)
Definition sheet_entry (tbl : gmap string string) (k : string) (v : pyval)
    : Prop :=
  exists rec,
    v = VDict rec
    /\ record_shape rec
    /\ (exists single married,
           Dict.get rec "single" = Some (VList single)
           /\ Dict.get rec "married" = Some (VList married)
           /\ List.length single = List.length married)
    /\ (k = "" \/ exists key, tbl !! key = Some k).

(** A sheet with two rows of column titles above its first state. *)
Definition header_row : row := repeat (Cell (VStr "Rates")) 13.

Definition header_sheet : list row :=
  header_row :: header_row :: maryland_sheet.

Definition header_states : Dict.t :=
  Eval vm_compute in states_of (scan_rows Sample.table header_sheet [] []).

(** The run does not end in a call of [sys.exit]. *)
Definition no_exit {A : Type} (m : result A) : Prop :=
  forall status, m <> Raise (SystemExit status).

(** A run of spaces. *)
Fixpoint spaces (n : nat) : string :=
  match n with
  | O => EmptyString
  | S n' => String " " (spaces n')
  end.

(** * Properties *)

(** ** Text operations on sample inputs *)

Example lower_ex : PyStr.lower "ALABAMA." = "alabama.".
Proof. reflexivity. Qed.

Example strip_ex : PyStr.strip "  n.a. " = "n.a.".
Proof. reflexivity. Qed.

Example replace_ex : PyStr.replace "credit" "" "$1,200 credit" = "$1,200 ".
Proof. reflexivity. Qed.

Example replace_overlap_ex : PyStr.replace "aa" "b" "aaa" = "ba".
Proof. reflexivity. Qed.

Example split_ex : PyStr.split "(" "alabama (a)" = ["alabama "; "a)"].
Proof. reflexivity. Qed.

Example parse_int_ex : PyStr.parse_int "1200" = Some 1200%Z.
Proof. reflexivity. Qed.

Example parse_int_bad : PyStr.parse_int "12 00" = None.
Proof. reflexivity. Qed.

(** ** The error monad *)

Lemma bind_Ok {A B : Type} (a : A) (k : A -> result B) : Ok a ≫= k = k a.
Proof. reflexivity. Qed.

Lemma bind_Raise {A B : Type} (e : exn) (k : A -> result B) :
  Raise e ≫= k = Raise e.
Proof. reflexivity. Qed.

Lemma bind_Ok_inv {A B : Type} (m : result A) (k : A -> result B) (b : B) :
  m ≫= k = Ok b -> exists a, m = Ok a /\ k a = Ok b.
Proof. destruct m as [a|e]; [eauto | discriminate]. Qed.

(** Splits a hypothesis [m ≫= k = Ok b] into the two runs it stands for. *)
Ltac bind_inv H :=
  let a := fresh "a" in
  let Ha := fresh "Ha" in
  apply bind_Ok_inv in H; destruct H as (a & Ha & H); cbn beta in H.

Lemma Some_fun {A : Type} (o : option A) (x y : A) :
  o = Some x -> o = Some y -> x = y.
Proof. congruence. Qed.

Lemma index_Ok {A : Type} (xs : list A) (i : nat) (x : A) :
  index xs i = Ok x <-> xs !! i = Some x.
Proof.
  unfold index. destruct (xs !! i); split; intros H; congruence.
Qed.

(** ** Text *)

Lemma prefix_empty (s : string) : String.prefix "" s = true.
Proof. destruct s; reflexivity. Qed.

Lemma prefix_char (c d : ascii) (s : string) :
  String.prefix (String c "") (String d s) = Ascii.eqb d c.
Proof.
  cbn. destruct (ascii_dec c d) as [->|Hne].
  - rewrite Ascii.eqb_refl. apply prefix_empty.
  - symmetry. apply Ascii.eqb_neq. congruence.
Qed.

(** [c in s] for a one-character [c] *)
Lemma contains_char (c : ascii) (s : string) :
  PyStr.contains (String c "") s = has_char c s.
Proof.
  induction s as [|d s IH]; [reflexivity |].
  cbn [PyStr.contains has_char]. rewrite prefix_char, IH. reflexivity.
Qed.

(** [s.replace(c, "")] for a one-character [c] *)
Lemma replace_char (c : ascii) (s : string) :
  PyStr.replace (String c "") "" s = remove_char c s.
Proof.
  unfold PyStr.replace.
  induction s as [|d s IH]; [reflexivity |].
  cbn [PyStr.replace_from remove_char]. rewrite prefix_char.
  destruct (Ascii.eqb d c); cbn; rewrite IH; reflexivity.
Qed.

Lemma append_cons (x : ascii) (a b : string) :
  (String x a ++ b)%string = String x (a ++ b).
Proof. reflexivity. Qed.

Lemma lower_app (a b : string) :
  PyStr.lower (a ++ b) = (PyStr.lower a ++ PyStr.lower b)%string.
Proof.
  induction a as [|x a IH]; [reflexivity |].
  rewrite append_cons. cbn [PyStr.lower]. rewrite IH. reflexivity.
Qed.

Lemma remove_char_app (c : ascii) (a b : string) :
  remove_char c (a ++ b) = (remove_char c a ++ remove_char c b)%string.
Proof.
  induction a as [|x a IH]; [reflexivity |].
  rewrite append_cons. cbn [remove_char].
  rewrite IH. destruct (Ascii.eqb x c); reflexivity.
Qed.

(** Lower-casing neither makes nor unmakes an opening parenthesis. *)
Lemma lower_char_paren (d : ascii) :
  Ascii.eqb (PyStr.lower_char d) "(" = Ascii.eqb d "(".
Proof.
  destruct d as [[] [] [] [] [] [] [] []]; vm_compute; reflexivity.
Qed.

Lemma has_paren_lower (s : string) :
  has_char "(" (PyStr.lower s) = has_char "(" s.
Proof.
  induction s as [|d s IH]; [reflexivity |].
  cbn [PyStr.lower has_char]. rewrite lower_char_paren, IH. reflexivity.
Qed.

Lemma has_char_remove (c c' : ascii) (s : string) :
  has_char c s = false -> has_char c (remove_char c' s) = false.
Proof.
  induction s as [|d s IH]; [reflexivity |].
  cbn [has_char remove_char]. intros H.
  apply orb_false_iff in H as [Hd Hs].
  destruct (Ascii.eqb d c'); cbn [has_char]; [| rewrite Hd]; auto.
Qed.

(** The first piece of a split is what stands before the first separator. *)
Lemma split_hd (c : ascii) (a : string) :
  has_char c a = false -> hd "" (PyStr.split c a) = a.
Proof.
  induction a as [|d a IH]; [reflexivity |].
  cbn [has_char PyStr.split]. intros H.
  apply orb_false_iff in H as [Hd Ha]. rewrite Hd.
  specialize (IH Ha). destruct (PyStr.split c a); cbn in *; congruence.
Qed.

Lemma split_hd_app (c : ascii) (a b : string) :
  has_char c a = false -> hd "" (PyStr.split c (a ++ String c b)) = a.
Proof.
  induction a as [|d a IH]; cbn [has_char].
  - intros _. change ("" ++ String c b)%string with (String c b).
    cbn [PyStr.split]. rewrite Ascii.eqb_refl. reflexivity.
  - intros H. apply orb_false_iff in H as [Hd Ha].
    rewrite append_cons. cbn [PyStr.split]. rewrite Hd.
    specialize (IH Ha).
    destruct (PyStr.split c (a ++ String c b)); cbn in *; congruence.
Qed.

Lemma append_nil_r (a : string) : (a ++ "")%string = a.
Proof.
  induction a as [|x a IH]; [reflexivity |].
  rewrite append_cons, IH. reflexivity.
Qed.

Lemma append_assoc (a b c : string) :
  ((a ++ b) ++ c)%string = (a ++ (b ++ c))%string.
Proof.
  induction a as [|x a IH]; [reflexivity |].
  rewrite !append_cons, IH. reflexivity.
Qed.

Lemma has_char_app (c : ascii) (a b : string) :
  has_char c (a ++ b) = has_char c a || has_char c b.
Proof.
  induction a as [|x a IH]; [reflexivity |].
  rewrite append_cons. cbn [has_char]. rewrite IH, orb_assoc. reflexivity.
Qed.

(** ** The deduction normalizer *)

Example clean_deduction_credit :
  clean_deduction (VStr "$1,200 credit") = Ok (entry (VInt 1200) true).
Proof. reflexivity. Qed.

Example clean_deduction_empty :
  clean_deduction (VStr "") = Ok (entry VNone false)
  /\ clean_deduction VNone = Ok (entry VNone false).
Proof. split; reflexivity. Qed.

Example clean_deduction_capital_credit :
  clean_deduction (VStr "$1,200 Credit") = Raise ValueError.
Proof. reflexivity. Qed.

Lemma clean_deduction_float (f : float) :
  clean_deduction (VFloat f)
  = if PrimFloat.eqb f 0%float then Ok (entry VNone false)
    else Raise AttributeError.
Proof.
  unfold clean_deduction. cbn [is_int truthy].
  destruct (PrimFloat.eqb f 0); reflexivity.
Qed.

(** C2 (as stated, refuted): the text "N/A" is not turned into a null
    value.  Lower-casing, trimming and removing periods leave "n/a", which
    is not "na"; the text has no "credit" in it either, so it is passed
    through unchanged.  The order of the two steps counts as well: "na ."
    is "na" once its period is removed and the rest trimmed, but the code
    trims first, and passes the text through. *)
Lemma clean_deduction_slash_not_null :
  clean_deduction (VStr "N/A") = Ok (entry (VStr "N/A") false)
  /\ clean_deduction (VStr "N/A") <> Ok (entry VNone false)
  /\ spec_is_na "na ." = true
  /\ clean_deduction (VStr "na .") = Ok (entry (VStr "na .") false).
Proof. repeat split. discriminate. Qed.

(** C2 (amended): every text that, once lower-cased, trimmed and then
    freed of its periods, is "na" is normalized to a null value that is
    not a credit. *)
Theorem clean_deduction_na (s : string) :
  PyStr.replace "." "" (PyStr.strip (PyStr.lower s)) = "na" ->
  clean_deduction (VStr s) = Ok (entry VNone false).
Proof.
  intros H. unfold clean_deduction. cbn [is_int].
  destruct (negb (truthy (VStr s))); [reflexivity |].
  rewrite H. reflexivity.
Qed.

Lemma clean_deduction_na_witness :
  clean_deduction (VStr " N.A. ") = Ok (entry VNone false).
Proof. apply clean_deduction_na. reflexivity. Defined.

(** C9 (as stated, refuted): a numeric input that is a [float] is not
    returned as it is.  The test of the first branch is
    [isinstance(value, int)]; a non-zero float passes it by, is not falsy,
    and the call of [lower] on it raises. *)
Lemma clean_deduction_float_raises :
  clean_deduction (VFloat 4500.5) = Raise AttributeError
  /\ clean_deduction (VFloat 4500.5) <> Ok (entry (VFloat 4500.5) false).
Proof. split; [reflexivity | discriminate]. Qed.

(** C9 (amended): every [int] input, a [bool] included, is returned as it
    is and marked as not a credit; 4500 is the worked example. *)
Theorem clean_deduction_int :
  (forall z : Z, clean_deduction (VInt z) = Ok (entry (VInt z) false))
  /\ (forall b : bool, clean_deduction (VBool b) = Ok (entry (VBool b) false))
  /\ clean_deduction (VInt 4500)
     = Ok (VDict [("value", VInt 4500); ("credit", VBool false)]).
Proof. repeat split. Qed.

Lemma clean_deduction_entry (v d : pyval) :
  clean_deduction v = Ok d -> is_entry d.
Proof.
  unfold clean_deduction, is_entry. intros H.
  destruct (is_int v); [inversion H; eauto |].
  destruct (negb (truthy v)); [inversion H; eauto |].
  destruct v; try discriminate.
  destruct (String.eqb _ _); [inversion H; eauto |].
  destruct (PyStr.contains _ _); [| inversion H; eauto].
  destruct (PyStr.parse_int _); inversion H; eauto.
Qed.

(** ** The block extractor *)

Example extract_codes_colorado :
  extract_codes [Cell (VStr "Colorado (a, b)")] = Ok [VStr "a"; VStr "b"]
  /\ extract_codes [Cell (VStr "Colorado")] = Ok [].
Proof. split; reflexivity. Qed.

Lemma deduction_at_entry (r : row) (i : nat) (d : pyval) :
  deduction_at r i = Ok d -> is_entry d.
Proof.
  unfold deduction_at. intros H. bind_inv H.
  eapply clean_deduction_entry; eassumption.
Qed.

Lemma extract_deductions_shape (r : row) (d : pyval) :
  extract_deductions r = Ok d -> is_deductions d.
Proof.
  unfold extract_deductions. intros H.
  do 5 bind_inv H. inversion H; subst; clear H.
  exists a, a0, a1, a2, a3.
  repeat (split; [eapply deduction_at_entry; eassumption |]). reflexivity.
Qed.

(** A row of fewer than twelve cells has no deductions to extract. *)
Lemma extract_deductions_length (r : row) (d : pyval) :
  extract_deductions r = Ok d -> (12 <= List.length r)%nat.
Proof.
  unfold extract_deductions. intros H.
  do 5 bind_inv H. unfold deduction_at in Ha3. bind_inv Ha3.
  apply index_Ok, lookup_lt_Some in Ha4. lia.
Qed.

(** [rows[1] if len(rows) > 1 else None] is the lookup of the second row. *)
Lemma second_row (rows : list row) :
  (if (1 <? List.length rows)%nat then r1 ← index rows 1; Ok (Some r1)
   else Ok None) = Ok (rows !! 1).
Proof.
  destruct rows as [|r0 [|r1 rows]]; reflexivity.
Qed.

Lemma bracket_step_length (acc acc' : list pyval * list pyval) (r : row) :
  bracket_step acc r = Ok acc' ->
  List.length acc.1 = List.length acc.2 ->
  List.length acc'.1 = List.length acc'.2.
Proof.
  unfold bracket_step. intros H Hlen.
  destruct (existsb truthy (key_values r)).
  - do 4 bind_inv H. inversion H; subst; clear H. cbn [fst snd].
    rewrite !length_app. cbn. lia.
  - inversion H; subst. exact Hlen.
Qed.

Lemma brackets_length (rows : list row) :
  forall acc acc' : list pyval * list pyval,
    for_each bracket_step acc rows = Ok acc' ->
    List.length acc.1 = List.length acc.2 ->
    List.length acc'.1 = List.length acc'.2.
Proof.
  induction rows as [|r rows IH]; intros acc acc' H Hlen; cbn in H.
  - inversion H; subst. exact Hlen.
  - bind_inv H. eapply IH; [eassumption |].
    eapply bracket_step_length; eassumption.
Qed.

(** What a successful run of [process_state] went through. *)
Lemma process_state_Ok (tbl : gmap string string) (rows : list row)
    (code : string) (rec : Dict.t) :
  process_state tbl rows = Ok (code, rec) ->
  exists r0 c0 c2 deductions notes note_codes,
    rows !! 0 = Some r0 /\ r0 !! 0 = Some c0 /\ r0 !! 2 = Some c2
    /\ get_state_code tbl (value c0) = Ok code
    /\ extract_deductions r0 = Ok deductions
    /\ extract_notes r0 (rows !! 1) = Ok (notes, note_codes)
    /\ ((is_merged c2 = true
         /\ exists c1, r0 !! 1 = Some c1
            /\ rec = [("single", VList []); ("married", VList []);
                      ("notes", VList (notes ++ [value c1]));
                      ("note_codes", VList note_codes);
                      ("deductions", deductions)])
        \/ (is_merged c2 = false
            /\ exists single married,
               for_each bracket_step ([], []) rows = Ok (single, married)
               /\ rec = [("single", VList single); ("married", VList married);
                         ("note_codes", VList note_codes);
                         ("notes", VList notes);
                         ("deductions", deductions)])).
Proof.
  unfold process_state. intros H.
  bind_inv H. bind_inv H. bind_inv H. bind_inv H.
  rewrite second_row in H. rewrite bind_Ok in H.
  bind_inv H. destruct a3 as [notes note_codes]. bind_inv H.
  apply index_Ok in Ha, Ha0, Ha4.
  exists a, a0, a3, a2, notes, note_codes.
  destruct (is_merged a3) eqn:Hm.
  - bind_inv H. apply index_Ok in Ha5. inversion H; subst.
    repeat (split; [assumption |]). left. eauto.
  - bind_inv H. destruct a4 as [single married]. inversion H; subst.
    repeat (split; [assumption |]). right. eauto.
Qed.

(** The loop of [extract_notes] does not survive a second row that is
    [None]: slicing it raises. *)
Lemma extract_notes_None (r : row) (res : list pyval * list pyval) :
  extract_notes r None <> Ok res.
Proof.
  unfold extract_notes. cbn [for_each notes_step]. intros H.
  bind_inv H. discriminate.
Qed.

(** C3 (the code departs from it): the extraction of a block of exactly one
    row never succeeds.  [process_state] passes [None] for the missing
    second row, and the loop of [extract_notes] slices it like a row; on
    the sample row of Alaska the exception is a [TypeError]. *)
Theorem process_state_one_row_raises :
  (forall (tbl : gmap string string) (r : row),
      exists e, process_state tbl [r] = Raise e)
  /\ extract_notes Sample.alaska None = Raise TypeError
  /\ process_state Sample.table [Sample.alaska] = Raise TypeError.
Proof.
  split; [| split; reflexivity].
  intros tbl r. destruct (process_state tbl [r]) as [[code rec]|e] eqn:H;
    [| eauto].
  apply process_state_Ok in H.
  destruct H as (r0 & c0 & c2 & d & notes & codes & _ & _ & _ & _ & _ & Hn & _).
  cbn in Hn. apply extract_notes_None in Hn. contradiction.
Qed.

(** C4 (as stated, refuted): the record extracted from the sample block of
    Maryland has no key "standard_deductions" and no key
    "personal_exemptions" at its top level. *)
Lemma process_state_not_spec_shape :
  process_state Sample.table maryland_block = Ok ("MD", maryland_record)
  /\ Dict.keys maryland_record
     = ["single"; "married"; "note_codes"; "notes"; "deductions"]
  /\ spec_shape maryland_record = false
  /\ Dict.get maryland_record "standard_deductions" = None
  /\ Dict.get maryland_record "personal_exemptions" = None.
Proof. repeat split. Qed.

(** C4 (amended): every record the extractor returns has the five
    top-level keys single, married, notes, note_codes and deductions; the
    value of deductions holds standard_deductions (single, married) and
    personal_exemptions (single, married, dependant), each a deduction
    entry. *)
Theorem process_state_record_shape (tbl : gmap string string)
    (rows : list row) (code : string) (rec : Dict.t) :
  process_state tbl rows = Ok (code, rec) -> record_shape rec.
Proof.
  intros H. apply process_state_Ok in H.
  destruct H as (r0 & c0 & c2 & d & notes & codes & _ & _ & _ & _ & Hd & _ & H).
  apply extract_deductions_shape in Hd. unfold record_shape.
  destruct H as [(_ & c1 & _ & ->) | (_ & single & married & _ & ->)].
  - exists [], [], (notes ++ [value c1]), codes, d.
    repeat (split; [first [assumption | reflexivity] |]). reflexivity.
  - exists single, married, notes, codes, d.
    repeat (split; [first [assumption | reflexivity] |]).
    cbn. do 2 apply perm_skip. apply perm_swap.
Qed.

Lemma process_state_record_shape_witness : record_shape maryland_record.
Proof.
  apply (process_state_record_shape Sample.table maryland_block "MD").
  reflexivity.
Defined.

(** C5: in every record the extractor returns, the lists of single and of
    married brackets have the same length. *)
Theorem process_state_brackets_same_length (tbl : gmap string string)
    (rows : list row) (code : string) (rec : Dict.t) :
  process_state tbl rows = Ok (code, rec) ->
  exists single married,
    Dict.get rec "single" = Some (VList single)
    /\ Dict.get rec "married" = Some (VList married)
    /\ List.length single = List.length married.
Proof.
  intros H. apply process_state_Ok in H.
  destruct H as (r0 & c0 & c2 & d & notes & codes & _ & _ & _ & _ & _ & _ & H).
  destruct H as [(_ & c1 & _ & ->) | (_ & single & married & Hb & ->)].
  - exists [], []. repeat split.
  - exists single, married. repeat split.
    apply (brackets_length rows ([], []) (single, married) Hb). reflexivity.
Qed.

Lemma process_state_brackets_same_length_witness :
  exists single married,
    Dict.get maryland_record "single" = Some (VList single)
    /\ Dict.get maryland_record "married" = Some (VList married)
    /\ List.length single = List.length married.
Proof.
  apply (process_state_brackets_same_length Sample.table maryland_block "MD").
  reflexivity.
Defined.

Lemma split_not_nil (c : ascii) (s : string) : PyStr.split c s <> [].
Proof.
  destruct s as [|d s]; cbn [PyStr.split]; [discriminate |].
  destruct (Ascii.eqb d c); [discriminate |].
  destruct (PyStr.split c s); discriminate.
Qed.

(** A text with a separator in it splits into two pieces at least. *)
Lemma split_second (c : ascii) (s : string) :
  PyStr.contains (String c "") s = true ->
  exists piece, PyStr.split c s !! 1 = Some piece.
Proof.
  induction s as [|d s IH]; cbn [PyStr.contains PyStr.split];
    [discriminate |].
  rewrite prefix_char. destruct (Ascii.eqb d c); cbn [orb].
  - intros _. pose proof (split_not_nil c s) as Hne.
    destruct (PyStr.split c s) as [|p ps]; [contradiction | eauto].
  - intros H. destruct (IH H) as [piece Hp].
    destruct (PyStr.split c s) as [|p ps]; [discriminate | eauto].
Qed.

(** The codes of a row that has a first cell are always extracted. *)
Lemma extract_codes_total (r : row) :
  r <> [] -> exists codes, extract_codes r = Ok codes.
Proof.
  destruct r as [|c0 r]; [contradiction |]. intros _.
  unfold extract_codes. cbn [index lookup list_lookup]. rewrite bind_Ok.
  destruct (value c0); eauto.
  destruct (PyStr.contains "(" s) eqn:E; [| eauto].
  destruct (split_second "(" s E) as [piece Hp].
  apply index_Ok in Hp. rewrite Hp, bind_Ok. eauto.
Qed.

(** With a second row at hand the notes are always extracted. *)
Lemma extract_notes_total (row1 row2 : row) :
  row1 <> [] -> row2 <> [] ->
  exists notes note_codes,
    extract_notes row1 (Some row2) = Ok (notes, note_codes).
Proof.
  intros H1 H2. unfold extract_notes. cbn [for_each notes_step].
  destruct (extract_codes_total row1 H1) as [codes1 ->].
  destruct (extract_codes_total row2 H2) as [codes2 ->].
  rewrite !bind_Ok. cbn [fst snd]. eauto.
Qed.

(** C7: when the third cell of a block's first row is a merged cell, the
    extracted record has no single and no married brackets, and its notes
    are the notes of the regular step followed by the raw value of the
    first row's second cell.  A record is extracted as soon as the name
    resolves, the deductions of the first row normalize and a second row
    with a first cell is there. *)
Theorem process_state_merged (tbl : gmap string string) (rows : list row)
    (r0 : row) :
  rows !! 0 = Some r0 ->
  r0 !! 2 = Some MergedCell ->
  (forall code rec,
      process_state tbl rows = Ok (code, rec) ->
      exists c1 notes note_codes,
        r0 !! 1 = Some c1
        /\ extract_notes r0 (rows !! 1) = Ok (notes, note_codes)
        /\ Dict.get rec "single" = Some (VList [])
        /\ Dict.get rec "married" = Some (VList [])
        /\ Dict.get rec "notes" = Some (VList (notes ++ [value c1])))
  /\ (forall c0 code deductions (r1 : row),
        r0 !! 0 = Some c0 ->
        get_state_code tbl (value c0) = Ok code ->
        extract_deductions r0 = Ok deductions ->
        rows !! 1 = Some r1 ->
        r1 <> [] ->
        exists rec, process_state tbl rows = Ok (code, rec)).
Proof.
  intros Hr0 Hc2. split.
  - intros code rec H. apply process_state_Ok in H.
    destruct H as (r0' & c0 & c2 & d & notes & codes & Hr0' & _ & Hc2' & _ & _
                   & Hn & H).
    assert (r0' = r0) as -> by congruence.
    assert (c2 = MergedCell) as -> by congruence.
    destruct H as [(_ & c1 & Hc1 & ->) | (Hm & _)]; [| discriminate].
    exists c1, notes, codes. repeat split; assumption.
  - intros c0 code d r1 Hc0 Hcode Hd Hr1 Hne.
    assert (Hr0ne : r0 <> []) by (destruct r0; [discriminate | congruence]).
    destruct (extract_notes_total r0 r1 Hr0ne Hne) as (notes & codes & Hn).
    assert (Hc1 : exists c1, r0 !! 1 = Some c1).
    { apply lookup_lt_is_Some. apply extract_deductions_length in Hd. lia. }
    destruct Hc1 as [c1 Hc1].
    unfold process_state.
    apply index_Ok in Hr0, Hc0, Hc2, Hc1.
    rewrite Hr0, bind_Ok, Hc0, bind_Ok, Hcode, bind_Ok, Hd, bind_Ok.
    rewrite second_row, bind_Ok, Hr1, Hn, bind_Ok, Hc2, bind_Ok.
    cbn [is_merged]. rewrite Hc1, bind_Ok. eauto.
Qed.

Lemma process_state_merged_witness :
  (forall code rec,
      process_state Sample.table alaska_block = Ok (code, rec) ->
      exists c1 notes note_codes,
        Sample.alaska !! 1 = Some c1
        /\ extract_notes Sample.alaska (alaska_block !! 1)
           = Ok (notes, note_codes)
        /\ Dict.get rec "single" = Some (VList [])
        /\ Dict.get rec "married" = Some (VList [])
        /\ Dict.get rec "notes" = Some (VList (notes ++ [value c1])))
  /\ (forall c0 code deductions (r1 : row),
        Sample.alaska !! 0 = Some c0 ->
        get_state_code Sample.table (value c0) = Ok code ->
        extract_deductions Sample.alaska = Ok deductions ->
        alaska_block !! 1 = Some r1 ->
        r1 <> [] ->
        exists rec, process_state Sample.table alaska_block = Ok (code, rec)).
Proof.
  apply (process_state_merged Sample.table alaska_block Sample.alaska);
    reflexivity.
Defined.

Example alaska_extracted :
  process_state Sample.table alaska_block = Ok ("AK", alaska_record).
Proof. reflexivity. Qed.

Example alaska_notes :
  Dict.get alaska_record "notes"
  = Some (VList [VStr "see (b)"; VStr "No state income tax"]).
Proof. reflexivity. Qed.

(** ** The sheet segmenter *)

(** At a row whose second cell is merged the loop is left at once: the
    dictionary and the accumulator stay as they are. *)
Lemma scan_rows_break (tbl : gmap string string) (r : row) (rest : list row)
    (states : Dict.t) (state_rows : list row) :
  r !! 1 = Some MergedCell ->
  scan_rows tbl (r :: rest) states state_rows = Ok (states, state_rows).
Proof.
  intros H. cbn [scan_rows]. apply index_Ok in H. rewrite H. reflexivity.
Qed.

Lemma get_set (d : Dict.t) (k k' : string) (v : pyval) :
  Dict.get (Dict.set d k v) k'
  = if String.eqb k k' then Some v else Dict.get d k'.
Proof.
  induction d as [|[k0 v0] d IH]; cbn.
  - reflexivity.
  - destruct (String.eqb k0 k) eqn:E0; cbn.
    + apply String.eqb_eq in E0. subst k0.
      destruct (String.eqb k k'); reflexivity.
    + rewrite IH. destruct (String.eqb k0 k') eqn:E1; [| reflexivity].
      apply String.eqb_eq in E1. subst k0.
      rewrite String.eqb_sym, E0. reflexivity.
Qed.

Lemma started_not_empty (tbl : gmap string string) (rows : list row)
    (k : string) :
  k ∈ started tbl rows -> k <> "".
Proof.
  induction rows as [|r rest IH]; cbn [started]; intros H; [inversion H |].
  destruct (index r 1) as [c1|]; [| inversion H].
  destruct (index r 0) as [colA|]; [| inversion H].
  destruct (is_merged c1); [inversion H |].
  destruct (get_state_code tbl (value colA)) as [code|]; [| inversion H].
  destruct (String.eqb code "") eqn:E; cbn [negb] in H; [auto |].
  apply elem_of_cons in H as [-> | H]; [| auto].
  apply String.eqb_neq. exact E.
Qed.

Lemma removelast_cons (k : string) (l : list string) :
  l <> [] -> removelast (k :: l) = k :: removelast l.
Proof. destruct l; [contradiction | reflexivity]. Qed.

(** A key of the dictionary the loop leaves was there at the start, or is
    the code of the block in the accumulator or of a state-start row still
    to come, the last of these rows apart: its block is still in the
    accumulator when the loop is left. *)
Lemma scan_rows_keys (tbl : gmap string string) (rows : list row) (k : string) :
  k <> "" ->
  forall (states : Dict.t) (state_rows : list row) (states' : Dict.t)
         (state_rows' : list row),
    scan_rows tbl rows states state_rows = Ok (states', state_rows') ->
    has_key states' k = true ->
    has_key states k = true
    \/ (started tbl rows <> []
        /\ (block_code tbl state_rows k
            \/ k ∈ removelast (started tbl rows))).
Proof.
  intros Hk.
  induction rows as [|r rest IH]; intros states acc states' acc' H Hin.
  - inversion H; subst. left. exact Hin.
  - cbn [scan_rows started] in *. bind_inv H. rewrite Ha.
    destruct (is_merged a); [inversion H; subst; left; exact Hin |].
    bind_inv H. bind_inv H. rewrite Ha0, Ha1.
    destruct (String.eqb a1 "") eqn:E; cbn [negb] in *.
    + (* a continuation row *)
      destruct (IH _ _ _ _ H Hin) as [Hs | (Hne & [Hb | Hl])].
      * left. exact Hs.
      * right. split; [exact Hne |]. left.
        destruct Hb as (r0 & c0 & Hr0 & Hc0 & Hg).
        destruct acc as [|b acc].
        -- assert (r0 = r) as -> by (cbn in Hr0; congruence).
           apply index_Ok in Ha0.
           assert (c0 = a0) as -> by exact (Some_fun _ _ _ Hc0 Ha0).
           assert (k = a1) as -> by congruence.
           apply String.eqb_eq in E. contradiction.
        -- exists r0, c0. repeat split; assumption.
      * right. split; [exact Hne |]. right. exact Hl.
    + (* a state-start row *)
      bind_inv H.
      assert (Hmid : has_key a2 k = true ->
                     has_key states k = true \/ block_code tbl acc k).
      { intros Hm. destruct acc as [|b acc].
        - inversion Ha2; subst. left. exact Hm.
        - bind_inv Ha2. destruct a3 as [state data]. inversion Ha2; subst.
          unfold has_key in Hm. rewrite get_set in Hm.
          destruct (String.eqb state k) eqn:Es; [| left; exact Hm].
          apply String.eqb_eq in Es. subst state. right.
          apply process_state_Ok in Ha3.
          destruct Ha3 as (r0 & c0 & c2 & d & n & c & Hr0 & Hc0 & _ & Hg & _).
          exists r0, c0. repeat split; assumption. }
      destruct (IH _ _ _ _ H Hin) as [Hs | (Hne & [Hb | Hl])].
      * destruct (Hmid Hs) as [Hs' | Hb]; [left; exact Hs' |].
        right. split; [discriminate |]. left. exact Hb.
      * right. split; [discriminate |]. right.
        rewrite removelast_cons by exact Hne.
        destruct Hb as (r0 & c0 & Hr0 & Hc0 & Hg).
        assert (r0 = r) as -> by (cbn in Hr0; congruence).
        apply index_Ok in Ha0.
        assert (c0 = a0) as -> by exact (Some_fun _ _ _ Hc0 Ha0).
        assert (k = a1) as -> by congruence.
        apply elem_of_cons. left. reflexivity.
      * right. split; [discriminate |]. right.
        rewrite removelast_cons by exact Hne.
        apply elem_of_cons. right. exact Hl.
Qed.

(** The state started last before the loop is left is a key of the
    dictionary only if it was started before as well. *)
Lemma scan_rows_last_dropped (tbl : gmap string string) (sheet : list row)
    (states : Dict.t) (state_rows : list row) (codes : list string)
    (c : string) :
  scan_rows tbl sheet [] [] = Ok (states, state_rows) ->
  started tbl sheet = codes ++ [c] ->
  c ∉ codes ->
  has_key states c = false.
Proof.
  intros H Hst Hc. destruct (has_key states c) eqn:Hin; [| reflexivity].
  exfalso.
  assert (Hne : c <> "").
  { apply (started_not_empty tbl sheet). rewrite Hst.
    apply elem_of_app. right. apply elem_of_cons. left. reflexivity. }
  destruct (scan_rows_keys tbl sheet c Hne _ _ _ _ H Hin)
    as [Hs | (_ & [Hb | Hl])].
  - discriminate.
  - destruct Hb as (r0 & c0 & Hr0 & _). discriminate.
  - rewrite Hst, removelast_last in Hl. contradiction.
Qed.

(** C1 (the code departs from it): the block being accumulated when the
    footer is met is never flushed.  A row whose second cell is merged
    leaves the dictionary and the accumulator as they are, and the state
    started last is in the dictionary only if an earlier row started it
    too.  On the sheet of the scenario the loop leaves with Alabama alone
    in the dictionary and the row of Alaska still in the accumulator, and
    [process_sheet] then fails on the lookup of Maryland; with Maryland in
    the place of Alabama, [process_sheet] returns, and its result has
    Maryland only. *)
Theorem process_sheet_drops_last_block :
  (forall (tbl : gmap string string) (r : row) (rest : list row)
          (states : Dict.t) (state_rows : list row),
      r !! 1 = Some MergedCell ->
      scan_rows tbl (r :: rest) states state_rows = Ok (states, state_rows))
  /\ (forall (tbl : gmap string string) (sheet : list row) (states : Dict.t)
             (state_rows : list row) (codes : list string) (c : string),
        scan_rows tbl sheet [] [] = Ok (states, state_rows) ->
        started tbl sheet = codes ++ [c] ->
        c ∉ codes ->
        has_key states c = false)
  /\ started Sample.table scenario_sheet = ["AL"; "AK"]
  /\ scan_rows Sample.table scenario_sheet [] []
     = Ok (scenario_states, [Sample.alaska])
  /\ Dict.keys scenario_states = ["AL"]
  /\ process_sheet Sample.table scenario_sheet = Raise KeyError
  /\ started Sample.table maryland_sheet = ["MD"; "AK"]
  /\ process_sheet Sample.table maryland_sheet = Ok maryland_states
  /\ Dict.keys maryland_states = ["MD"]
  /\ Dict.get maryland_states "AK" = None.
Proof.
  split; [exact scan_rows_break |].
  split; [exact scan_rows_last_dropped |].
  repeat split.
Qed.

(** A key "MD" in the dictionary the loop leaves was there at the start,
    or comes from a row that resolves to it. *)
Lemma scan_rows_md (tbl : gmap string string) (rows : list row) :
  forall (states : Dict.t) (state_rows : list row) (states' : Dict.t)
         (state_rows' : list row),
    scan_rows tbl rows states state_rows = Ok (states', state_rows') ->
    has_key states' "MD" = true ->
    has_key states "MD" = true
    \/ exists r, r ∈ state_rows ++ rows /\ resolves_md tbl r.
Proof.
  induction rows as [|r rest IH]; intros states acc states' acc' H Hmd.
  - inversion H; subst. left. exact Hmd.
  - cbn [scan_rows] in H. bind_inv H.
    destruct (is_merged a); [inversion H; subst; left; exact Hmd |].
    bind_inv H. bind_inv H.
    destruct (negb (String.eqb a1 "")).
    + bind_inv H. destruct (IH _ _ _ _ H Hmd) as [Hk | (r' & Hin & Hr')].
      * destruct acc as [|b acc].
        { inversion Ha2; subst. left. exact Hk. }
        bind_inv Ha2. destruct a3 as [state data]. inversion Ha2; subst.
        unfold has_key in Hk. rewrite get_set in Hk.
        destruct (String.eqb state "MD") eqn:E.
        -- apply String.eqb_eq in E. subst state.
           apply process_state_Ok in Ha3.
           destruct Ha3 as (r0 & c0 & c2 & d & n & c & Hr0 & Hc0 & _ & Hg & _).
           cbn in Hr0. inversion Hr0; subst r0. right. exists b. split.
           ++ apply elem_of_cons. left. reflexivity.
           ++ exists c0. split; assumption.
        -- left. exact Hk.
      * right. exists r'. split; [| exact Hr'].
        apply elem_of_app. right. exact Hin.
    + destruct (IH _ _ _ _ H Hmd) as [Hk | (r' & Hin & Hr')].
      * left. exact Hk.
      * right. exists r'. split; [| exact Hr'].
        rewrite <- app_assoc in Hin. exact Hin.
Qed.

(** C10: a sheet is processed to its end only if Maryland is in it.  When
    the loop over the rows leaves a dictionary without the key "MD",
    [process_sheet] raises [KeyError]; when [process_sheet] returns, its
    result has the key "MD" and some row of the sheet resolves to it; so a
    sheet none of whose rows resolves to "MD" always ends in an exception. *)
Theorem process_sheet_needs_maryland (tbl : gmap string string)
    (sheet : list row) :
  (forall states state_rows,
      scan_rows tbl sheet [] [] = Ok (states, state_rows) ->
      Dict.get states "MD" = None ->
      process_sheet tbl sheet = Raise KeyError)
  /\ (forall states,
        process_sheet tbl sheet = Ok states ->
        has_key states "MD" = true
        /\ exists r, r ∈ sheet /\ resolves_md tbl r)
  /\ ((forall r, r ∈ sheet -> ~ resolves_md tbl r) ->
      exists e, process_sheet tbl sheet = Raise e).
Proof.
  assert (Hret : forall states,
             process_sheet tbl sheet = Ok states ->
             has_key states "MD" = true
             /\ exists r, r ∈ sheet /\ resolves_md tbl r).
  { intros states H. unfold process_sheet in H. bind_inv H.
    destruct a as [states0 acc]. bind_inv H. inversion H; subst.
    assert (Hk : has_key states "MD" = true).
    { unfold has_key. unfold Dict.item in Ha0.
      destruct (Dict.get states "MD"); [reflexivity | discriminate]. }
    split; [exact Hk |].
    destruct (scan_rows_md _ _ _ _ _ _ Ha Hk) as [Hk0 | Hr].
    - discriminate.
    - exact Hr. }
  split; [| split].
  - intros states acc H Hmd. unfold process_sheet. rewrite H. cbn.
    unfold Dict.item. rewrite Hmd. reflexivity.
  - exact Hret.
  - intros Hno. destruct (process_sheet tbl sheet) as [states|e] eqn:H.
    + destruct (Hret states eq_refl) as (_ & r & Hin & Hr).
      exfalso. exact (Hno r Hin Hr).
    + exists e. reflexivity.
Qed.

Lemma process_sheet_needs_maryland_witness :
  process_sheet Sample.table scenario_sheet = Raise KeyError.
Proof.
  apply (proj1 (process_sheet_needs_maryland Sample.table scenario_sheet)
           scenario_states [Sample.alaska]); reflexivity.
Defined.

(** ** The year driver *)

Lemma leb_refl (a : string) : String.leb a a = true.
Proof. destruct (String.leb_total a a); assumption. Qed.

Lemma leb_trans (a : string) :
  forall b c : string,
    String.leb a b = true -> String.leb b c = true -> String.leb a c = true.
Proof.
  unfold String.leb.
  induction a as [|x a IH]; intros [|y b] [|z c]; cbn; try congruence.
  unfold Ascii.compare.
  destruct (N.compare_spec (N_of_ascii x) (N_of_ascii y)) as [Exy|Lxy|Gxy],
           (N.compare_spec (N_of_ascii y) (N_of_ascii z)) as [Eyz|Lyz|Gyz],
           (N.compare_spec (N_of_ascii x) (N_of_ascii z)) as [Exz|Lxz|Gxz];
    try congruence; try lia.
  apply IH.
Qed.

(** The first name of the sorted list is one of the names and none of them
    is greater. *)
Lemma sort_desc_head (l : list string) :
  match sort_desc l with
  | [] => l = []
  | top :: _ => top ∈ l /\ forall x, x ∈ l -> String.leb x top = true
  end.
Proof.
  induction l as [|x l IH]; cbn [sort_desc]; [reflexivity |].
  destruct (sort_desc l) as [|y rest]; cbn [insert_desc].
  - subst l. split; [apply elem_of_cons; left; reflexivity |].
    intros z Hz. apply elem_of_cons in Hz as [-> | Hz].
    + apply leb_refl.
    + inversion Hz.
  - destruct IH as [Hy Hmax]. destruct (String.leb y x) eqn:E.
    + split; [apply elem_of_cons; left; reflexivity |].
      intros z Hz. apply elem_of_cons in Hz as [-> | Hz].
      * apply leb_refl.
      * eapply leb_trans; [apply Hmax; exact Hz | exact E].
    + split; [apply elem_of_cons; right; exact Hy |].
      intros z Hz. apply elem_of_cons in Hz as [-> | Hz].
      * destruct (String.leb_total x y) as [H | H]; [exact H | congruence].
      * apply Hmax. exact Hz.
Qed.

Lemma getitem_Ok (wb : workbook) (name : string) :
  name ∈ sheetnames wb -> exists sheet, getitem wb name = Ok sheet.
Proof.
  induction wb as [|[title sheet] wb IH]; cbn; intros H.
  - inversion H.
  - destruct (String.eqb title name) eqn:E; [eauto |].
    apply elem_of_cons in H as [-> | H].
    + rewrite String.eqb_refl in E. discriminate.
    + apply IH. exact H.
Qed.

(** C8: when some sheet name looks like a year, [main] processes one
    sheet only, the one whose name is the greatest of the names that look
    like a year, and the dictionary it hands to the writer has that name as
    its only key. *)
Theorem main_most_recent_sheet (tbl : gmap string string) (wb : workbook) :
  (exists n, n ∈ sheetnames wb /\ looks_like_year n = true) ->
  exists top sheet,
    top ∈ sheetnames wb
    /\ looks_like_year top = true
    /\ (forall n, n ∈ sheetnames wb -> looks_like_year n = true ->
                  String.leb n top = true)
    /\ getitem wb top = Ok sheet
    /\ main tbl wb
       = (states ← process_sheet tbl sheet; Ok [(top, VDict states)])
    /\ (forall results, main tbl wb = Ok results -> Dict.keys results = [top]).
Proof.
  intros (n & Hn & Hy). unfold main.
  pose proof (sort_desc_head (List.filter looks_like_year (sheetnames wb)))
    as Hs.
  destruct (sort_desc (List.filter looks_like_year (sheetnames wb)))
    as [|top rest].
  - assert (Hin : n ∈ List.filter looks_like_year (sheetnames wb)).
    { apply list_elem_of_In, filter_In. split; [| exact Hy].
      apply list_elem_of_In. exact Hn. }
    rewrite Hs in Hin. inversion Hin.
  - destruct Hs as [Htop Hmax].
    apply list_elem_of_In, filter_In in Htop as [Htop Htopy].
    apply list_elem_of_In in Htop.
    destruct (getitem_Ok wb top Htop) as [sheet Hsheet].
    exists top, sheet. rewrite Hsheet, bind_Ok.
    split; [exact Htop |]. split; [exact Htopy |].
    split; [| split; [reflexivity | split; [reflexivity |]]].
    + intros m Hm Hmy. apply Hmax.
      apply list_elem_of_In, filter_In. split; [| exact Hmy].
      apply list_elem_of_In. exact Hm.
    + intros results H. bind_inv H. inversion H; subst. reflexivity.
Qed.

Lemma main_most_recent_sheet_witness :
  exists top sheet,
    top ∈ sheetnames sample_workbook
    /\ looks_like_year top = true
    /\ (forall n,
          n ∈ sheetnames sample_workbook -> looks_like_year n = true ->
          String.leb n top = true)
    /\ getitem sample_workbook top = Ok sheet
    /\ main Sample.table sample_workbook
       = (states ← process_sheet Sample.table sheet; Ok [(top, VDict states)])
    /\ (forall results, main Sample.table sample_workbook = Ok results ->
                        Dict.keys results = [top]).
Proof.
  apply (main_most_recent_sheet Sample.table sample_workbook).
  exists "2022". split; [| reflexivity].
  cbn. apply elem_of_cons. right. apply elem_of_cons. left. reflexivity.
Defined.

Example main_sample :
  main Sample.table sample_workbook = Ok [("2023", VDict maryland_states)].
Proof. reflexivity. Qed.

(** ** The state name resolver *)

(** The key of a name without a parenthesis: lower case, no periods. *)
Lemma safe_value_plain (s : string) :
  has_char "(" s = false -> safe_value s = remove_char "." (PyStr.lower s).
Proof.
  intros H. unfold safe_value. rewrite replace_char.
  apply split_hd, has_char_remove. rewrite has_paren_lower. exact H.
Qed.

(** The key of a name followed by a parenthesis: what comes from the
    parenthesis on is dropped, nothing else. *)
Lemma safe_value_marker (s m : string) :
  has_char "(" s = false ->
  safe_value (s ++ String "(" m) = remove_char "." (PyStr.lower s).
Proof.
  intros H. unfold safe_value.
  rewrite replace_char, lower_app, remove_char_app.
  change (remove_char "." (PyStr.lower (String "(" m)))
    with (String "("%char (remove_char "." (PyStr.lower m))).
  apply split_hd_app, has_char_remove. rewrite has_paren_lower. exact H.
Qed.

Lemma get_state_code_str (tbl : gmap string string) (s : string) :
  s <> "" ->
  get_state_code tbl (VStr s) = Ok (default "" (tbl !! safe_value s)).
Proof.
  intros H. unfold get_state_code. cbn [truthy].
  apply String.eqb_neq in H. rewrite H. reflexivity.
Qed.

Lemma app_not_empty (a b : string) : a <> "" -> (a ++ b)%string <> "".
Proof. destruct a; [congruence | discriminate]. Qed.

Lemma lower_not_empty (a b : string) :
  PyStr.lower a = PyStr.lower b -> b <> "" -> a <> "".
Proof. destruct a, b; cbn; congruence. Qed.

(** Two names that differ in casing only have the same key. *)
Lemma safe_value_lower (s t : string) :
  PyStr.lower s = PyStr.lower t -> safe_value s = safe_value t.
Proof. unfold safe_value. intros ->. reflexivity. Qed.

(** A period at the end of a name leaves its key as it is. *)
Lemma safe_value_period (s : string) :
  has_char "(" s = false -> safe_value (s ++ ".") = safe_value s.
Proof.
  intros H. rewrite !safe_value_plain.
  - rewrite lower_app, remove_char_app.
    change (remove_char "." (PyStr.lower ".")) with "".
    apply append_nil_r.
  - exact H.
  - rewrite has_char_app, H. reflexivity.
Qed.

(** What the resolver does make of the variants of a name without a
    parenthesis: another casing, a period appended and a parenthesis put
    directly after the name leave the code as it is; with a space before
    the parenthesis the variant resolves like the name followed by that
    space. *)
Lemma get_state_code_variants (tbl : gmap string string)
    (name variant marker : string) :
  name <> "" ->
  PyStr.contains "(" name = false ->
  PyStr.lower variant = PyStr.lower name ->
  get_state_code tbl (VStr variant) = get_state_code tbl (VStr name)
  /\ get_state_code tbl (VStr (variant ++ "."))
     = get_state_code tbl (VStr name)
  /\ get_state_code tbl (VStr (variant ++ String "(" marker))
     = get_state_code tbl (VStr name)
  /\ get_state_code tbl (VStr (variant ++ String " " (String "(" marker)))
     = get_state_code tbl (VStr (name ++ " ")).
Proof.
  intros Hne Hparen Hlow. rewrite contains_char in Hparen.
  assert (Hv : variant <> "") by (eapply lower_not_empty; eassumption).
  assert (Hvparen : has_char "(" variant = false).
  { rewrite <- has_paren_lower, Hlow, has_paren_lower. exact Hparen. }
  assert (Hkey : safe_value variant = safe_value name)
    by (apply safe_value_lower; exact Hlow).
  rewrite !get_state_code_str by (try apply app_not_empty; assumption).
  repeat split.
  - rewrite Hkey. reflexivity.
  - rewrite (safe_value_period variant Hvparen), Hkey. reflexivity.
  - rewrite (safe_value_marker variant marker Hvparen).
    rewrite <- (safe_value_plain variant Hvparen), Hkey. reflexivity.
  - change (variant ++ String " " (String "(" marker))%string
      with (variant ++ (" " ++ String "(" marker))%string.
    rewrite <- append_assoc, safe_value_marker
      by (rewrite has_char_app, Hvparen; reflexivity).
    rewrite safe_value_plain by (rewrite has_char_app, Hparen; reflexivity).
    rewrite !lower_app, Hlow. reflexivity.
Qed.

Lemma get_state_code_variants_witness :
  get_state_code Sample.table (VStr "ALABAMA")
  = get_state_code Sample.table (VStr "Alabama")
  /\ get_state_code Sample.table (VStr "ALABAMA.")
     = get_state_code Sample.table (VStr "Alabama")
  /\ get_state_code Sample.table (VStr "ALABAMA(a)")
     = get_state_code Sample.table (VStr "Alabama")
  /\ get_state_code Sample.table (VStr "ALABAMA (a)")
     = get_state_code Sample.table (VStr "Alabama ").
Proof.
  apply (get_state_code_variants Sample.table "Alabama" "ALABAMA" "a)");
    [discriminate | reflexivity | reflexivity].
Defined.

(** * Further properties of the parser *)

(** ** Characters kept and dropped by the text operations *)

Lemma has_char_all (c : ascii) (s : string) :
  has_char c s = negb (all_char (is_not c) s).
Proof.
  induction s as [|d s IH]; [reflexivity |].
  cbn [has_char all_char]. rewrite IH. unfold is_not.
  destruct (Ascii.eqb d c); reflexivity.
Qed.

Lemma has_char_false (c : ascii) (s : string) :
  has_char c s = false <-> all_char (is_not c) s = true.
Proof.
  rewrite has_char_all.
  destruct (all_char (is_not c) s); cbn; split; congruence.
Qed.

Lemma all_char_remove (p : ascii -> bool) (c : ascii) (s : string) :
  all_char p s = true -> all_char p (remove_char c s) = true.
Proof.
  induction s as [|d s IH]; [reflexivity |].
  cbn [all_char remove_char]. intros H.
  apply andb_true_iff in H as [Hd Hs].
  destruct (Ascii.eqb d c); cbn [all_char]; [| rewrite Hd]; auto.
Qed.

Lemma remove_char_gone (c : ascii) (s : string) :
  all_char (is_not c) (remove_char c s) = true.
Proof.
  induction s as [|d s IH]; [reflexivity |].
  cbn [remove_char]. destruct (Ascii.eqb d c) eqn:E; [exact IH |].
  cbn [all_char]. unfold is_not at 1. rewrite E. exact IH.
Qed.

(** Every piece of a split is free of the separator, and keeps what holds
    of all the characters of the text. *)
Lemma split_pieces (p : ascii -> bool) (c : ascii) (s : string) :
  all_char p s = true ->
  Forall (fun piece => all_char p piece = true
                       /\ all_char (is_not c) piece = true)
    (PyStr.split c s).
Proof.
  induction s as [|d s IH]; cbn [all_char PyStr.split]; intros H.
  - repeat constructor.
  - apply andb_true_iff in H as [Hd Hs]. specialize (IH Hs).
    destruct (Ascii.eqb d c) eqn:E.
    + constructor; [split; reflexivity | exact IH].
    + destruct (PyStr.split c s) as [|piece ps].
      * repeat constructor; cbn [all_char];
          [rewrite Hd | unfold is_not; rewrite E]; reflexivity.
      * inversion IH as [|? ? [Hp Hn] Hps]; subst. constructor; [| exact Hps].
        cbn [all_char]. unfold is_not at 1. rewrite Hd, E, Hp, Hn.
        split; reflexivity.
Qed.

Lemma all_char_true (s : string) : all_char (fun _ => true) s = true.
Proof. induction s as [|d s IH]; [reflexivity | exact IH]. Qed.

Lemma all_char_lstrip (p : ascii -> bool) (s : string) :
  all_char p s = true -> all_char p (PyStr.lstrip s) = true.
Proof.
  induction s as [|d s IH]; [reflexivity |].
  cbn [PyStr.lstrip]. intros H. destruct (PyStr.isspace d); [| exact H].
  cbn [all_char] in H. apply andb_true_iff in H as [_ Hs]. auto.
Qed.

Lemma all_char_rstrip (p : ascii -> bool) (s : string) :
  all_char p s = true -> all_char p (PyStr.rstrip s) = true.
Proof.
  induction s as [|d s IH]; [reflexivity |].
  cbn [all_char PyStr.rstrip]. intros H.
  apply andb_true_iff in H as [Hd Hs]. specialize (IH Hs).
  destruct (PyStr.rstrip s) as [|e r].
  - destruct (PyStr.isspace d); [reflexivity |]. cbn [all_char].
    rewrite Hd. reflexivity.
  - cbn [all_char] in *. rewrite Hd. exact IH.
Qed.

Lemma all_char_strip (p : ascii -> bool) (s : string) :
  all_char p s = true -> all_char p (PyStr.strip s) = true.
Proof. intros H. apply all_char_rstrip, all_char_lstrip, H. Qed.

Lemma rstrip_rstrip (s : string) :
  PyStr.rstrip (PyStr.rstrip s) = PyStr.rstrip s.
Proof.
  induction s as [|d s IH]; [reflexivity |].
  cbn [PyStr.rstrip]. destruct (PyStr.rstrip s) as [|e r] eqn:E.
  - destruct (PyStr.isspace d) eqn:Ed; [reflexivity |].
    cbn [PyStr.rstrip]. rewrite Ed. reflexivity.
  - cbn [PyStr.rstrip] in *. rewrite IH. reflexivity.
Qed.

(** What [lstrip] leaves does not start with white space, and neither does
    what is left of it once its end is trimmed. *)
Lemma lstrip_strip (s : string) :
  PyStr.lstrip (PyStr.strip s) = PyStr.strip s.
Proof.
  unfold PyStr.strip.
  induction s as [|d s IH]; [reflexivity |].
  cbn [PyStr.lstrip]. destruct (PyStr.isspace d) eqn:Ed; [exact IH |].
  cbn [PyStr.rstrip]. destruct (PyStr.rstrip s);
    cbn [PyStr.lstrip]; rewrite Ed; cbn [PyStr.lstrip]; rewrite ?Ed;
    reflexivity.
Qed.

(** Trimming twice is trimming once. *)
Lemma strip_strip (s : string) :
  PyStr.strip (PyStr.strip s) = PyStr.strip s.
Proof.
  unfold PyStr.strip at 1. rewrite lstrip_strip.
  unfold PyStr.strip. apply rstrip_rstrip.
Qed.

Lemma split_hd_pieces (p : ascii -> bool) (c : ascii) (s : string) :
  all_char p s = true ->
  all_char p (hd "" (PyStr.split c s)) = true
  /\ all_char (is_not c) (hd "" (PyStr.split c s)) = true.
Proof.
  intros H. pose proof (split_pieces p c s H) as Hf.
  destruct (PyStr.split c s) as [|piece ps]; [split; reflexivity |].
  inversion Hf; subst. assumption.
Qed.

Lemma lower_char_lower (d : ascii) : is_lower (PyStr.lower_char d) = true.
Proof.
  destruct d as [[] [] [] [] [] [] [] []]; vm_compute; reflexivity.
Qed.

Lemma lower_is_lower (s : string) : all_char is_lower (PyStr.lower s) = true.
Proof.
  induction s as [|d s IH]; [reflexivity |].
  cbn [PyStr.lower all_char]. rewrite lower_char_lower. exact IH.
Qed.

Lemma lower_fixed (s : string) :
  all_char is_lower s = true -> PyStr.lower s = s.
Proof.
  induction s as [|d s IH]; [reflexivity |].
  cbn [all_char PyStr.lower]. intros H.
  apply andb_true_iff in H as [Hd Hs]. unfold is_lower in Hd.
  apply Ascii.eqb_eq in Hd. rewrite Hd, (IH Hs). reflexivity.
Qed.

(** X1: the key [get_state_code] looks up is in lower case and has no
    period and no opening parenthesis in it, whatever the name; so an entry
    of the table whose key has a capital, a period or an opening
    parenthesis is never found. *)
Theorem safe_value_normal_form :
  (forall s : string,
      PyStr.lower (safe_value s) = safe_value s
      /\ has_char "." (safe_value s) = false
      /\ has_char "(" (safe_value s) = false)
  /\ (forall k : string,
        PyStr.lower k <> k \/ has_char "." k = true \/ has_char "(" k = true ->
        forall s : string, safe_value s <> k).
Proof.
  assert (Hnf : forall s : string,
             PyStr.lower (safe_value s) = safe_value s
             /\ has_char "." (safe_value s) = false
             /\ has_char "(" (safe_value s) = false).
  { intros s. unfold safe_value. rewrite replace_char.
    pose proof (all_char_remove is_lower "." _ (lower_is_lower s)) as Hl.
    pose proof (remove_char_gone "." (PyStr.lower s)) as Hp.
    destruct (split_hd_pieces is_lower "(" _ Hl) as [Hl' Hn].
    destruct (split_hd_pieces (is_not ".") "(" _ Hp) as [Hp' _].
    split; [apply lower_fixed; exact Hl' |].
    split; apply has_char_false; assumption. }
  split; [exact Hnf |].
  intros k Hk s Heq. destruct (Hnf s) as (Hl & Hp & Hn).
  rewrite Heq in Hl, Hp, Hn.
  destruct Hk as [Hk | [Hk | Hk]]; congruence.
Qed.

(** ** The codes of a row *)

Lemma strip_has_char (c : ascii) (s : string) :
  has_char c s = false -> has_char c (PyStr.strip s) = false.
Proof.
  rewrite !has_char_false. apply all_char_strip.
Qed.

Lemma split_second_piece (c : ascii) (s piece : string) :
  PyStr.split c s !! 1 = Some piece -> has_char c piece = false.
Proof.
  intros H. apply has_char_false.
  pose proof (split_pieces (fun _ => true) c s (all_char_true s)) as Hf.
  rewrite Forall_forall in Hf.
  apply (Hf piece). apply list_elem_of_lookup. eauto.
Qed.

Lemma clean_codes (code_str : string) :
  has_char "(" code_str = false ->
  has_char ")" code_str = false ->
  Forall is_clean_code
    (map (fun code => VStr (PyStr.strip code)) (PyStr.split "," code_str)).
Proof.
  intros Ho Hc. apply has_char_false in Ho, Hc.
  pose proof (split_pieces (is_not "(") "," _ Ho) as Hfo.
  pose proof (split_pieces (is_not ")") "," _ Hc) as Hfc.
  induction (PyStr.split "," code_str) as [|piece ps IH]; [constructor |].
  inversion Hfo as [|? ? [Hpo Hpn] Hfo']; subst.
  inversion Hfc as [|? ? [Hpc _] Hfc']; subst.
  cbn [map]. constructor; [| apply IH; assumption].
  exists (PyStr.strip piece). split; [reflexivity |].
  split; [apply strip_strip |].
  repeat split; apply strip_has_char, has_char_false; assumption.
Qed.

Lemma extract_codes_Ok_clean (r : row) (codes : list pyval) :
  extract_codes r = Ok codes -> Forall is_clean_code codes.
Proof.
  unfold extract_codes. intros H. bind_inv H.
  destruct (value a); try (inversion H; subst; constructor).
  destruct (PyStr.contains "(" s) eqn:E; [| inversion H; subst; constructor].
  bind_inv H. inversion H; subst. apply index_Ok in Ha0.
  pose proof (split_second_piece _ _ _ Ha0) as Ho.
  rewrite replace_char. apply clean_codes.
  - apply has_char_false, all_char_remove, has_char_false, Ho.
  - apply has_char_false, remove_char_gone.
Qed.

(** X2: [extract_codes] fails on a row without cells, with [IndexError],
    and on no other row; the codes it returns are trimmed texts without
    parentheses and commas. *)
Theorem extract_codes_clean (r : row) :
  (r = [] /\ extract_codes r = Raise IndexError)
  \/ (r <> [] /\ exists codes,
                  extract_codes r = Ok codes /\ Forall is_clean_code codes).
Proof.
  destruct r as [|c0 r]; [left; split; reflexivity |].
  right. split; [discriminate |].
  destruct (extract_codes_total (c0 :: r)) as [codes H]; [discriminate |].
  exists codes. split; [exact H |]. eapply extract_codes_Ok_clean, H.
Qed.

(** ** The deduction normalizer, further *)

(** X3: what [clean_deduction] returns and raises.  A returned entry is
    marked as a credit only for a text with "credit" in it, whatever the
    casing, and its value is then an integer; otherwise the value is the
    raw input or [None]; it is never the empty text.  The exceptions are
    [AttributeError], for an input that is not a text, and [ValueError],
    for a text with "credit" in it. *)
Theorem clean_deduction_outcomes (v : pyval) :
  (forall d, clean_deduction v = Ok d ->
     exists x c,
       d = entry x c
       /\ x <> VStr ""
       /\ (c = true ->
           exists s z, v = VStr s
                       /\ PyStr.contains "credit" (PyStr.lower s) = true
                       /\ x = VInt z)
       /\ (c = false -> x = v \/ x = VNone))
  /\ (forall e, clean_deduction v = Raise e ->
        (e = AttributeError /\ forall s, v <> VStr s)
        \/ (e = ValueError
            /\ exists s, v = VStr s
                         /\ PyStr.contains "credit" (PyStr.lower s) = true)).
Proof.
  unfold clean_deduction. split.
  - intros d H.
    destruct (is_int v) eqn:Ei.
    { inversion H; subst. exists v, false.
      repeat split; [| discriminate | auto].
      destruct v; cbn in Ei; congruence. }
    destruct (negb (truthy v)) eqn:Et.
    { inversion H; subst. exists VNone, false.
      repeat split; [discriminate | discriminate | auto]. }
    destruct v as [| | | |s| |]; try discriminate.
    destruct (String.eqb _ "na").
    { inversion H; subst. exists VNone, false.
      repeat split; [discriminate | discriminate | auto]. }
    destruct (PyStr.contains "credit" (PyStr.lower s)) eqn:Ec.
    + destruct (PyStr.parse_int _) as [z|]; [| discriminate].
      inversion H; subst. exists (VInt z), true.
      repeat split; [discriminate | eauto | discriminate].
    + inversion H; subst. exists (VStr s), false.
      repeat split; [| discriminate | auto].
      intros Hs. inversion Hs; subst. discriminate.
  - intros e H.
    destruct (is_int v); [discriminate |].
    destruct (negb (truthy v)); [discriminate |].
    destruct v as [| | | |s| |];
      try (inversion H; subst; left; split; [reflexivity | discriminate]).
    destruct (String.eqb _ "na"); [discriminate |].
    destruct (PyStr.contains "credit" (PyStr.lower s)) eqn:Ec; [| discriminate].
    destruct (PyStr.parse_int _); [discriminate |].
    inversion H; subst. right. eauto.
Qed.

Lemma has_char_any (c : ascii) (s : string) :
  has_char c s = any_char (fun d => Ascii.eqb d c) s.
Proof.
  induction s as [|d s IH]; [reflexivity |]. cbn. rewrite IH. reflexivity.
Qed.

Lemma any_char_remove (p : ascii -> bool) (c : ascii) (s : string) :
  p c = false -> any_char p (remove_char c s) = any_char p s.
Proof.
  intros Hc. induction s as [|d s IH]; [reflexivity |].
  cbn [remove_char any_char]. destruct (Ascii.eqb d c) eqn:E.
  - apply Ascii.eqb_eq in E. subst d. rewrite Hc. exact IH.
  - cbn [any_char]. rewrite IH. reflexivity.
Qed.

Section NotSpace.

Variable p : ascii -> bool.
Hypothesis p_not_space : forall d, p d = true -> PyStr.isspace d = false.

Lemma p_space (d : ascii) : PyStr.isspace d = true -> p d = false.
Proof.
  intros H. destruct (p d) eqn:E; [| reflexivity].
  apply p_not_space in E. congruence.
Qed.

Lemma any_char_lstrip (s : string) :
  any_char p (PyStr.lstrip s) = any_char p s.
Proof.
  induction s as [|d s IH]; [reflexivity |].
  cbn [PyStr.lstrip]. destruct (PyStr.isspace d) eqn:E; [| reflexivity].
  cbn [any_char]. rewrite (p_space d E). exact IH.
Qed.

Lemma any_char_rstrip (s : string) :
  any_char p (PyStr.rstrip s) = any_char p s.
Proof.
  induction s as [|d s IH]; [reflexivity |].
  cbn [PyStr.rstrip any_char]. rewrite <- IH.
  destruct (PyStr.rstrip s) as [|e r]; [| reflexivity].
  destruct (PyStr.isspace d) eqn:E; [| reflexivity].
  rewrite (p_space d E). reflexivity.
Qed.

Lemma any_char_strip (s : string) :
  any_char p (PyStr.strip s) = any_char p s.
Proof. unfold PyStr.strip. rewrite any_char_rstrip. apply any_char_lstrip. Qed.

End NotSpace.

Lemma is_c_cases (d : ascii) : is_c d = true -> d = "c"%char \/ d = "C"%char.
Proof.
  destruct d as [[] [] [] [] [] [] [] []]; vm_compute; intros H;
    first [discriminate | auto].
Qed.

Lemma is_c_not_space (d : ascii) : is_c d = true -> PyStr.isspace d = false.
Proof. intros H. destruct (is_c_cases d H); subst; reflexivity. Qed.

Lemma eqb_c_not_space (d : ascii) :
  Ascii.eqb d "c" = true -> PyStr.isspace d = false.
Proof. intros H. apply Ascii.eqb_eq in H. subst. reflexivity. Qed.

Lemma has_c_lower (s : string) :
  has_char "c" (PyStr.lower s) = any_char is_c s.
Proof.
  induction s as [|d s IH]; [reflexivity |].
  cbn [PyStr.lower has_char any_char]. rewrite IH. reflexivity.
Qed.

(** A text that has a word in it has the first letter of the word. *)
Lemma contains_first (c : ascii) (sub s : string) :
  PyStr.contains (String c sub) s = true -> has_char c s = true.
Proof.
  induction s as [|d s IH]; [discriminate |].
  cbn [PyStr.contains has_char String.prefix]. intros H.
  apply orb_true_iff in H as [H | H].
  - destruct (ascii_dec c d) as [->|]; [| discriminate].
    rewrite Ascii.eqb_refl. reflexivity.
  - rewrite (IH H). apply orb_true_r.
Qed.

(** Replacing a word the text does not have leaves the text as it is. *)
Lemma replace_absent (old new s : string) :
  PyStr.contains old s = false -> PyStr.replace old new s = s.
Proof.
  unfold PyStr.replace. induction s as [|d s IH]; [reflexivity |].
  cbn [PyStr.contains PyStr.replace_from]. intros H.
  apply orb_false_iff in H as [Hp Hs]. rewrite Hp, (IH Hs). reflexivity.
Qed.

(** A text with a letter c in it is no decimal literal. *)
Lemma digits_letter (s : string) :
  forall (acc : Z) (prev : bool),
    any_char is_c s = true -> PyStr.digits acc prev s = None.
Proof.
  induction s as [|d s IH]; intros acc prev H; [discriminate |].
  cbn [any_char] in H. cbn [PyStr.digits].
  destruct (is_c d) eqn:Ed.
  - destruct (is_c_cases d Ed); subst; reflexivity.
  - cbn [orb] in H. destruct (PyStr.is_digit d); [apply IH; exact H |].
    destruct (Ascii.eqb d "_"); [| reflexivity].
    destruct prev; [| reflexivity].
    destruct s as [|e s']; [reflexivity |].
    destruct (PyStr.is_digit e); [apply IH; exact H | reflexivity].
Qed.

Lemma parse_int_letter (s : string) :
  any_char is_c s = true -> PyStr.parse_int s = None.
Proof.
  intros H. unfold PyStr.parse_int.
  rewrite <- (any_char_strip is_c is_c_not_space) in H.
  destruct (PyStr.strip s) as [|d r]; [discriminate |].
  assert (Hd : forall acc prev, PyStr.digits acc prev (String d r) = None)
    by (intros; apply digits_letter; exact H).
  cbn [any_char] in H. destruct (is_c d) eqn:Ed.
  - destruct (is_c_cases d Ed); subst; apply Hd.
  - cbn [orb] in H.
    destruct (Ascii.eqb d "-") eqn:Em.
    { apply Ascii.eqb_eq in Em. subst d.
      rewrite (digits_letter r 0%Z false H). reflexivity. }
    destruct (Ascii.eqb d "+") eqn:Ep.
    { apply Ascii.eqb_eq in Ep. subst d. apply digits_letter. exact H. }
    destruct d as [[] [] [] [] [] [] [] []]; try apply Hd;
      cbn in Em, Ep; discriminate.
Qed.

(** X4: a text that has the word "credit" in it, but not in small letters
    throughout, cannot be normalized: the word is looked for whatever its
    casing and removed in small letters only, so its letters reach [int],
    which raises [ValueError]. *)
Theorem clean_deduction_mixed_case_credit (s : string) :
  PyStr.contains "credit" (PyStr.lower s) = true ->
  PyStr.contains "credit" s = false ->
  clean_deduction (VStr s) = Raise ValueError.
Proof.
  intros Hl Hs.
  assert (Hc : any_char is_c s = true).
  { rewrite <- has_c_lower. eapply contains_first. exact Hl. }
  unfold clean_deduction. cbn [is_int truthy].
  destruct (String.eqb s "") eqn:Ee.
  { apply String.eqb_eq in Ee. subst s. discriminate. }
  cbn [negb].
  destruct (String.eqb _ "na") eqn:Ena.
  { apply String.eqb_eq in Ena. exfalso.
    assert (Hh : has_char "c"
                   (PyStr.replace "." "" (PyStr.strip (PyStr.lower s))) = true).
    { rewrite replace_char, has_char_any, any_char_remove by reflexivity.
      rewrite (any_char_strip _ eqb_c_not_space), <- has_char_any.
      eapply contains_first. exact Hl. }
    rewrite Ena in Hh. discriminate. }
  rewrite Hl, (replace_absent _ _ _ Hs), !replace_char.
  rewrite parse_int_letter; [reflexivity |].
  rewrite (any_char_strip is_c is_c_not_space).
  rewrite !any_char_remove by reflexivity. exact Hc.
Qed.

Lemma clean_deduction_mixed_case_credit_witness :
  clean_deduction (VStr "$1,200 Credit") = Raise ValueError.
Proof. apply clean_deduction_mixed_case_credit; reflexivity. Defined.

(** ** Data rows *)

Lemma key_values_far (rest : list cell) :
  forall f : nat -> cell -> nat * cell,
    (forall i x, 7 <= (f i x).1) ->
    filter (fun p : nat * cell => p.1 ∈ key_cols) (imap f rest) = [].
Proof.
  induction rest as [|x rest IH]; intros f Hf; [reflexivity |].
  rewrite imap_cons, filter_cons_False.
  - apply IH. intros i y. apply Hf.
  - specialize (Hf 0 x). unfold key_cols.
    rewrite !elem_of_cons, elem_of_nil. lia.
Qed.

(** The values the test of a data row looks at are those of the cells 1, 3,
    4 and 6, as far as the row has them. *)
Lemma key_values_lookup (r : row) :
  key_values r = omap (fun i => value <$> r !! i) key_cols.
Proof.
  destruct r as [|c0 [|c1 [|c2 [|c3 [|c4 [|c5 [|c6 rest]]]]]]];
    try reflexivity.
  unfold key_values. rewrite !imap_cons.
  match goal with
  | |- context [imap ?f rest] =>
      change (map (fun p : nat * cell => value p.2)
                (filter (fun p : nat * cell => p.1 ∈ key_cols)
                   ([(0, c0); (1, c1); (2, c2); (3, c3); (4, c4); (5, c5);
                     (6, c6)] ++ imap f rest))
              = [value c1; value c3; value c4; value c6]);
      rewrite filter_app, (key_values_far rest f) by (intros; cbn; lia)
  end.
  reflexivity.
Qed.

Lemma populated_lookup (r : row) :
  populated r
  = truthy (value_at r 1) || truthy (value_at r 3)
    || truthy (value_at r 4) || truthy (value_at r 6).
Proof.
  unfold populated, value_at. rewrite key_values_lookup. unfold key_cols.
  cbn [omap list_omap].
  destruct (r !! 1), (r !! 3), (r !! 4), (r !! 6); cbn;
    rewrite ?orb_false_r; try reflexivity;
    repeat rewrite orb_assoc; reflexivity.
Qed.

Lemma index_Raise {A : Type} (xs : list A) (i : nat) (e : exn) :
  index xs i = Raise e -> e = IndexError.
Proof. unfold index. destruct (xs !! i); congruence. Qed.

Lemma index_past {A : Type} (xs : list A) (i : nat) :
  List.length xs <= i -> index xs i = Raise IndexError.
Proof.
  intros H. unfold index. rewrite lookup_ge_None_2 by exact H. reflexivity.
Qed.

Lemma value_at_Some (r : row) (i : nat) (c : cell) :
  r !! i = Some c -> value_at r i = value c.
Proof. unfold value_at. intros ->. reflexivity. Qed.

Lemma bracket_step_skip (acc : list pyval * list pyval) (r : row) :
  populated r = false -> bracket_step acc r = Ok acc.
Proof. unfold bracket_step. fold (populated r). intros ->. reflexivity. Qed.

Lemma bracket_step_data (acc : list pyval * list pyval) (r : row) :
  populated r = true -> 7 <= List.length r ->
  bracket_step acc r
  = Ok (acc.1 ++ [single_bracket r], acc.2 ++ [married_bracket r]).
Proof.
  unfold bracket_step. fold (populated r). intros -> Hlen.
  destruct (lookup_lt_is_Some_2 r 1) as [c1 H1]; [lia |].
  destruct (lookup_lt_is_Some_2 r 3) as [c3 H3]; [lia |].
  destruct (lookup_lt_is_Some_2 r 4) as [c4 H4]; [lia |].
  destruct (lookup_lt_is_Some_2 r 6) as [c6 H6]; [lia |].
  unfold single_bracket, married_bracket.
  rewrite (value_at_Some r 1 c1 H1), (value_at_Some r 3 c3 H3).
  rewrite (value_at_Some r 4 c4 H4), (value_at_Some r 6 c6 H6).
  apply index_Ok in H1, H3, H4, H6. rewrite H1, H3, H4, H6. reflexivity.
Qed.

Lemma bracket_step_short (acc : list pyval * list pyval) (r : row) :
  populated r = true -> List.length r < 7 ->
  bracket_step acc r = Raise IndexError.
Proof.
  unfold bracket_step. fold (populated r). intros -> Hlen.
  rewrite (index_past r 6) by lia.
  destruct (index r 1) eqn:E1; [| apply index_Raise in E1 as ->; reflexivity].
  destruct (index r 3) eqn:E3; [| apply index_Raise in E3 as ->; reflexivity].
  destruct (index r 4) eqn:E4; [| apply index_Raise in E4 as ->; reflexivity].
  reflexivity.
Qed.

(** X5: a row of a block with a rate table is a data row when one of its
    cells 1, 3, 4 and 6 has a truthy value, cells past the end of the row
    counting as empty.  A row that is none is skipped, whatever its length;
    a data row gives one bracket to each list when it has seven cells, and
    raises [IndexError] when it has fewer. *)
Theorem bracket_step_cases (acc : list pyval * list pyval) (r : row) :
  populated r
  = truthy (value_at r 1) || truthy (value_at r 3)
    || truthy (value_at r 4) || truthy (value_at r 6)
  /\ (populated r = false -> bracket_step acc r = Ok acc)
  /\ (populated r = true -> 7 <= List.length r ->
      bracket_step acc r
      = Ok (acc.1 ++ [single_bracket r], acc.2 ++ [married_bracket r]))
  /\ (populated r = true -> List.length r < 7 ->
      bracket_step acc r = Raise IndexError).
Proof.
  split; [apply populated_lookup |].
  split; [apply bracket_step_skip |].
  split; [apply bracket_step_data | apply bracket_step_short].
Qed.

(** The two lists the loop over the rows builds: a bracket for each data
    row, in the order of the rows; every data row has seven cells. *)
Lemma brackets_content (rows : list row) :
  forall acc acc' : list pyval * list pyval,
    for_each bracket_step acc rows = Ok acc' ->
    acc'.1 = acc.1 ++ map single_bracket (List.filter populated rows)
    /\ acc'.2 = acc.2 ++ map married_bracket (List.filter populated rows)
    /\ Forall (fun r => 7 <= List.length r) (List.filter populated rows).
Proof.
  induction rows as [|r rows IH]; intros acc acc' H; cbn [for_each] in H.
  - inversion H; subst. cbn. rewrite !app_nil_r. repeat split. constructor.
  - bind_inv H. cbn [List.filter]. destruct (populated r) eqn:Ep.
    + destruct (le_lt_dec 7 (List.length r)) as [Hlen | Hlen].
      * rewrite (bracket_step_data acc r Ep Hlen) in Ha.
        inversion Ha; subst a. destruct (IH _ _ H) as (H1 & H2 & H3).
        cbn [fst snd map] in *. rewrite H1, H2, <- !app_assoc.
        repeat split. constructor; assumption.
      * rewrite (bracket_step_short acc r Ep Hlen) in Ha. discriminate.
    + rewrite (bracket_step_skip acc r Ep) in Ha. inversion Ha; subst a.
      apply IH. exact H.
Qed.

(** X6: when the third cell of the first row is not merged, the record has
    one single and one married bracket for each data row of the block, in
    the order of the rows and made of the raw values of the cells 1 and 3,
    and 4 and 6; rows that are no data rows leave no trace, and every data
    row has at least seven cells. *)
Theorem standard_block_brackets (tbl : gmap string string) (rows : list row)
    (r0 : row) (c2 : cell) (code : string) (rec : Dict.t) :
  rows !! 0 = Some r0 ->
  r0 !! 2 = Some c2 ->
  is_merged c2 = false ->
  process_state tbl rows = Ok (code, rec) ->
  Dict.get rec "single"
  = Some (VList (map single_bracket (List.filter populated rows)))
  /\ Dict.get rec "married"
     = Some (VList (map married_bracket (List.filter populated rows)))
  /\ Forall (fun r => 7 <= List.length r) (List.filter populated rows).
Proof.
  intros Hr0 Hc2 Hm H. apply process_state_Ok in H.
  destruct H as (r0' & c0 & c2' & d & notes & codes & Hr0' & _ & Hc2' & _ & _
                 & _ & H).
  assert (r0' = r0) as -> by exact (Some_fun _ _ _ Hr0' Hr0).
  assert (c2' = c2) as -> by exact (Some_fun _ _ _ Hc2' Hc2).
  destruct H as [(Hm' & _) | (_ & single & married & Hb & ->)];
    [congruence |].
  destruct (brackets_content rows _ _ Hb) as (H1 & H2 & H3).
  cbn [fst snd app] in H1, H2. subst single married. repeat split. exact H3.
Qed.

Lemma standard_block_brackets_witness :
  Dict.get maryland_record "single"
  = Some (VList (map single_bracket (List.filter populated maryland_block)))
  /\ Dict.get maryland_record "married"
     = Some (VList (map married_bracket (List.filter populated maryland_block)))
  /\ Forall (fun r => 7 <= List.length r)
       (List.filter populated maryland_block).
Proof.
  apply (standard_block_brackets Sample.table maryland_block Sample.maryland
           (Cell (VStr ">")) "MD"); reflexivity.
Defined.

(** ** Deductions and notes of a row *)

Lemma index_ext {A : Type} (xs ys : list A) (i : nat) :
  xs !! i = ys !! i -> index xs i = index ys i.
Proof. unfold index. intros ->. reflexivity. Qed.

(** X7: the deductions of a row are read from its cells 7 to 11 and from
    nothing else: two rows that agree there give the same result; a row of
    at most seven cells raises [IndexError], and no row of fewer than
    twelve cells gives deductions. *)
Theorem extract_deductions_columns (r : row) :
  (forall r' : row,
      (forall i, 7 <= i < 12 -> r !! i = r' !! i) ->
      extract_deductions r = extract_deductions r')
  /\ (List.length r <= 7 -> extract_deductions r = Raise IndexError)
  /\ (forall d, extract_deductions r = Ok d -> 12 <= List.length r).
Proof.
  split; [| split].
  - intros r' H. unfold extract_deductions, deduction_at.
    rewrite (index_ext r r' 7), (index_ext r r' 8), (index_ext r r' 9),
      (index_ext r r' 10), (index_ext r r' 11) by (apply H; lia).
    reflexivity.
  - intros H. unfold extract_deductions, deduction_at.
    rewrite (index_past r 7) by exact H. reflexivity.
  - apply extract_deductions_length.
Qed.

Lemma row_notes_truthy (r : row) :
  Forall (fun v => truthy v = true) (row_notes r).
Proof.
  unfold row_notes. apply Forall_forall. intros v Hv.
  apply list_elem_of_In, filter_In in Hv. apply Hv.
Qed.

Lemma row_notes_short (r : row) : List.length r <= 12 -> row_notes r = [].
Proof.
  intros H. unfold row_notes. rewrite drop_ge by exact H. reflexivity.
Qed.

(** X8: [extract_notes] returns only when it is given a second row.  Its
    notes are then the truthy values of the cells from index 12 on, those
    of the first row before those of the second, so there are none when
    both rows have at most twelve cells; its codes are the codes of the
    first row followed by those of the second, all of them clean. *)
Theorem extract_notes_Ok (row1 : row) (row2 : option row)
    (notes note_codes : list pyval) :
  extract_notes row1 row2 = Ok (notes, note_codes) ->
  exists r2 codes1 codes2,
    row2 = Some r2
    /\ notes = row_notes row1 ++ row_notes r2
    /\ Forall (fun v => truthy v = true) notes
    /\ (List.length row1 <= 12 -> List.length r2 <= 12 -> notes = [])
    /\ extract_codes row1 = Ok codes1
    /\ extract_codes r2 = Ok codes2
    /\ note_codes = codes1 ++ codes2
    /\ Forall is_clean_code note_codes.
Proof.
  unfold extract_notes. cbn [for_each notes_step]. intros H.
  bind_inv H. bind_inv Ha. inversion Ha; subst a. clear Ha.
  bind_inv H. destruct row2 as [r2|]; [| discriminate].
  cbn [notes_step fst snd] in Ha. bind_inv Ha.
  inversion Ha; subst a. inversion H; subst. clear H Ha.
  exists r2, a0, a1. cbn [app].
  repeat (split; [first [reflexivity | assumption] |]).
  split; [apply Forall_app; split; apply row_notes_truthy |].
  split; [intros H1 H2; rewrite !row_notes_short by assumption; reflexivity |].
  repeat (split; [first [reflexivity | assumption] |]).
  apply Forall_app. split; eapply extract_codes_Ok_clean; eassumption.
Qed.

Lemma extract_notes_Ok_witness :
  exists r2 codes1 codes2,
    Some Sample.continuation = Some r2
    /\ [VStr "(a) local taxes"] = row_notes Sample.maryland ++ row_notes r2
    /\ Forall (fun v => truthy v = true) [VStr "(a) local taxes"]
    /\ (List.length Sample.maryland <= 12 -> List.length r2 <= 12 ->
        [VStr "(a) local taxes"] = [])
    /\ extract_codes Sample.maryland = Ok codes1
    /\ extract_codes r2 = Ok codes2
    /\ [] = codes1 ++ codes2
    /\ Forall is_clean_code [].
Proof.
  apply (extract_notes_Ok Sample.maryland (Some Sample.continuation)).
  reflexivity.
Defined.

(** ** Blocks from which a record is extracted *)

Lemma get_state_code_Ok (tbl : gmap string string) (v : pyval)
    (code : string) :
  get_state_code tbl v = Ok code ->
  code = "" \/ exists s, v = VStr s /\ tbl !! safe_value s = Some code.
Proof.
  unfold get_state_code. intros H.
  destruct (negb (truthy v)); [inversion H; auto |].
  destruct v; try discriminate. inversion H; subst.
  destruct (tbl !! safe_value s) as [c|] eqn:E; cbn; eauto.
Qed.

(** X9: a record is extracted only from a block of two rows at least whose
    first row has twelve cells at least and whose second row has a cell;
    the code that comes with the record is empty or is the entry of the
    table for the key of the first row's name. *)
Theorem process_state_needs (tbl : gmap string string) (rows : list row)
    (code : string) (rec : Dict.t) :
  process_state tbl rows = Ok (code, rec) ->
  exists (r0 r1 : row) (rest : list row),
    rows = r0 :: r1 :: rest
    /\ 12 <= List.length r0
    /\ r1 <> []
    /\ (code = ""
        \/ exists s, value_at r0 0 = VStr s
                     /\ tbl !! safe_value s = Some code).
Proof.
  intros H. apply process_state_Ok in H.
  destruct H as (r0 & c0 & c2 & d & notes & codes & Hr0 & Hc0 & _ & Hg & Hd
                 & Hn & _).
  destruct rows as [|r0' [|r1 rest]]; [discriminate | |].
  - cbn in Hn. apply extract_notes_None in Hn. contradiction.
  - cbn in Hr0. inversion Hr0; subst r0'. exists r0, r1, rest.
    split; [reflexivity |].
    split; [eapply extract_deductions_length; eassumption |].
    split.
    + intros ->. cbn in Hn. unfold extract_notes in Hn.
      cbn [for_each notes_step] in Hn. bind_inv Hn. discriminate.
    + rewrite (value_at_Some r0 0 c0 Hc0).
      apply get_state_code_Ok. exact Hg.
Qed.

Lemma process_state_needs_witness :
  exists (r0 r1 : row) (rest : list row),
    maryland_block = r0 :: r1 :: rest
    /\ 12 <= List.length r0
    /\ r1 <> []
    /\ ("MD" = ""
        \/ exists s, value_at r0 0 = VStr s
                     /\ Sample.table !! safe_value s = Some "MD").
Proof.
  apply (process_state_needs Sample.table maryland_block "MD" maryland_record).
  reflexivity.
Defined.

(** X10: of a block whose first row has a merged third cell, the first two
    rows alone are read: the rows that follow them change neither the
    record nor the exception. *)
Theorem merged_block_two_rows (tbl : gmap string string)
    (r0 r1 : row) (rest : list row) :
  r0 !! 2 = Some MergedCell ->
  process_state tbl (r0 :: r1 :: rest) = process_state tbl [r0; r1].
Proof.
  intros Hc2. apply index_Ok in Hc2. unfold process_state.
  rewrite !second_row.
  change (index (r0 :: r1 :: rest) 0) with (@Ok row r0).
  change (index [r0; r1] 0) with (@Ok row r0).
  rewrite !bind_Ok.
  destruct (index r0 0) as [c0|]; [| reflexivity]. rewrite !bind_Ok.
  destruct (get_state_code tbl (value c0)); [| reflexivity]. rewrite !bind_Ok.
  destruct (extract_deductions r0); [| reflexivity]. rewrite !bind_Ok.
  change ((r0 :: r1 :: rest) !! 1) with (Some r1).
  change ([r0; r1] !! 1) with (Some r1).
  destruct (extract_notes r0 (Some r1)) as [[notes codes]|]; [| reflexivity].
  rewrite !bind_Ok, Hc2, !bind_Ok. reflexivity.
Qed.

Lemma merged_block_two_rows_witness :
  process_state Sample.table
    [Sample.alaska; Sample.empty_row; Sample.continuation]
  = process_state Sample.table [Sample.alaska; Sample.empty_row].
Proof. apply merged_block_two_rows. reflexivity. Defined.

(** ** The loop over the rows of a sheet *)

Lemma scan_rows_start (tbl : gmap string string) (r : row) (code : string)
    (rest : list row) (states : Dict.t) (state_rows : list row) :
  start_row tbl r code ->
  scan_rows tbl (r :: rest) states state_rows
  = (states' ← match state_rows with
               | [] => Ok states
               | _ =>
                   '(state, data) ← process_state tbl state_rows;
                   Ok (Dict.set states state (VDict data))
               end;
     scan_rows tbl rest states' [r]).
Proof.
  intros (c1 & colA & Hc1 & Hm & Hc0 & Hg & Hne).
  apply index_Ok in Hc1, Hc0. apply String.eqb_neq in Hne.
  cbn [scan_rows]. rewrite Hc1, bind_Ok, Hm, Hc0, bind_Ok, Hg, bind_Ok, Hne.
  reflexivity.
Qed.

Lemma scan_rows_continuation (tbl : gmap string string) (r : row)
    (rest : list row) (states : Dict.t) (state_rows : list row) :
  continuation_row tbl r ->
  scan_rows tbl (r :: rest) states state_rows
  = scan_rows tbl rest states (state_rows ++ [r]).
Proof.
  intros (c1 & colA & Hc1 & Hm & Hc0 & Hg).
  apply index_Ok in Hc1, Hc0.
  cbn [scan_rows]. rewrite Hc1, bind_Ok, Hm, Hc0, bind_Ok, Hg, bind_Ok.
  reflexivity.
Qed.

Lemma scan_rows_continuations (tbl : gmap string string) (conts : list row) :
  forall (rest : list row) (states : Dict.t) (state_rows : list row),
    Forall (continuation_row tbl) conts ->
    scan_rows tbl (conts ++ rest) states state_rows
    = scan_rows tbl rest states (state_rows ++ conts).
Proof.
  induction conts as [|r conts IH]; intros rest states acc H.
  - rewrite app_nil_r. reflexivity.
  - inversion H; subst. cbn [app].
    rewrite scan_rows_continuation by assumption.
    rewrite IH by assumption. rewrite <- app_assoc. reflexivity.
Qed.

(** X11: a block is a state-start row with the continuation rows that
    follow it.  When the next state-start row is met, the block is handed
    to [process_state], the record is stored under the code that comes
    back, and the loop goes on with that row as the new accumulator; an
    exception of [process_state] ends the loop. *)
Theorem scan_rows_block (tbl : gmap string string) (s r : row)
    (conts rest : list row) (code code' : string) (states : Dict.t) :
  start_row tbl s code ->
  Forall (continuation_row tbl) conts ->
  start_row tbl r code' ->
  scan_rows tbl (s :: conts ++ r :: rest) states []
  = ('(state, data) ← process_state tbl (s :: conts);
     scan_rows tbl rest (Dict.set states state (VDict data)) [r]).
Proof.
  intros Hs Hc Hr.
  rewrite (scan_rows_start tbl s code) by exact Hs. rewrite bind_Ok.
  rewrite scan_rows_continuations by exact Hc. cbn [app].
  rewrite (scan_rows_start tbl r code') by exact Hr.
  destruct (process_state tbl (s :: conts)) as [[state data]|e]; reflexivity.
Qed.

Lemma scan_rows_block_witness :
  scan_rows Sample.table
    (Sample.maryland :: [Sample.continuation]
       ++ Sample.alaska :: [Sample.sentinel_row]) [] []
  = ('(state, data) ← process_state Sample.table
                         (Sample.maryland :: [Sample.continuation]);
     scan_rows Sample.table [Sample.sentinel_row]
       (Dict.set [] state (VDict data)) [Sample.alaska]).
Proof.
  apply (scan_rows_block Sample.table Sample.maryland Sample.alaska
           [Sample.continuation] [Sample.sentinel_row] "MD" "AK").
  - do 2 eexists. repeat split. discriminate.
  - constructor; [| constructor]. do 2 eexists. repeat split.
  - do 2 eexists. repeat split. discriminate.
Defined.

Lemma scan_rows_footer (tbl : gmap string string) (pre : list row) :
  forall (r : row) (rest : list row) (states : Dict.t) (state_rows : list row),
    r !! 1 = Some MergedCell ->
    scan_rows tbl (pre ++ r :: rest) states state_rows
    = scan_rows tbl (pre ++ [r]) states state_rows.
Proof.
  induction pre as [|x pre IH]; intros r rest states acc Hr.
  - cbn [app]. rewrite !scan_rows_break by exact Hr. reflexivity.
  - cbn [app scan_rows].
    destruct (index x 1) as [c1|]; [| reflexivity]. rewrite !bind_Ok.
    destruct (is_merged c1); [reflexivity |].
    destruct (index x 0) as [colA|]; [| reflexivity]. rewrite !bind_Ok.
    destruct (get_state_code tbl (value colA)) as [code|]; [| reflexivity].
    rewrite !bind_Ok.
    destruct (negb (String.eqb code "")).
    + destruct (match acc with
                | [] => Ok states
                | _ :: _ =>
                    '(state, data) ← process_state tbl acc;
                    Ok (Dict.set states state (VDict data))
                end) as [states'|]; [| reflexivity].
      rewrite !bind_Ok. apply IH. exact Hr.
    + apply IH. exact Hr.
Qed.

(** X12: what follows the first row of the footer is never read: the rows
    after a row whose second cell is merged change neither the result nor
    the exception of [process_sheet]. *)
Theorem process_sheet_footer (tbl : gmap string string)
    (pre rest : list row) (r : row) :
  r !! 1 = Some MergedCell ->
  process_sheet tbl (pre ++ r :: rest) = process_sheet tbl (pre ++ [r]).
Proof.
  intros Hr. unfold process_sheet.
  rewrite (scan_rows_footer tbl pre r rest) by exact Hr. reflexivity.
Qed.

Lemma process_sheet_footer_witness :
  process_sheet Sample.table
    ([Sample.maryland; Sample.continuation; Sample.alaska]
       ++ Sample.sentinel_row :: [footer_row; Sample.alabama])
  = process_sheet Sample.table
      ([Sample.maryland; Sample.continuation; Sample.alaska]
         ++ [Sample.sentinel_row]).
Proof. apply process_sheet_footer. reflexivity. Defined.

Lemma scan_rows_cons (tbl : gmap string string) (r : row) (rest : list row)
    (states : Dict.t) (state_rows : list row) :
  scan_rows tbl (r :: rest) states state_rows
  = (c1 ← index r 1;
     if is_merged c1 then Ok (states, state_rows)
     else
       colA ← index r 0;
       state_code ← get_state_code tbl (value colA);
       if negb (String.eqb state_code "") then
         states' ← match state_rows with
                   | [] => Ok states
                   | _ =>
                       '(state, data) ← process_state tbl state_rows;
                       Ok (Dict.set states state (VDict data))
                   end;
         scan_rows tbl rest states' [r]
       else scan_rows tbl rest states (state_rows ++ [r])).
Proof. reflexivity. Qed.

Lemma process_state_one_row (tbl : gmap string string) (b : row) :
  exists e, process_state tbl [b] = Raise e.
Proof.
  destruct (process_state tbl [b]) as [[code rec]|e] eqn:H; [| eauto].
  apply process_state_Ok in H.
  destruct H as (r0 & c0 & c2 & d & notes & codes & _ & _ & _ & _ & _ & Hn & _).
  cbn in Hn. apply extract_notes_None in Hn. contradiction.
Qed.

(** X13: a sheet whose second row starts a state is never processed to its
    end, unless its first row is the footer already: the first row alone is
    the block handed to [process_state], which raises on a block of one
    row. *)
Theorem process_sheet_one_row_block (tbl : gmap string string) (b r : row)
    (rest : list row) (code : string) :
  b !! 1 <> Some MergedCell ->
  start_row tbl r code ->
  exists e, process_sheet tbl (b :: r :: rest) = Raise e.
Proof.
  intros Hb Hr. unfold process_sheet.
  assert (Hscan : forall states,
             exists e, scan_rows tbl (r :: rest) states [b] = Raise e).
  { intros states. rewrite (scan_rows_start tbl r code) by exact Hr.
    destruct (process_state_one_row tbl b) as [e He]. exists e.
    rewrite He. reflexivity. }
  rewrite scan_rows_cons.
  destruct (index b 1) as [c1|e] eqn:E1; [| exists e; reflexivity].
  rewrite bind_Ok. destruct c1 as [v|]; cbn [is_merged].
  - destruct (index b 0) as [colA|e]; [| exists e; reflexivity].
    rewrite bind_Ok.
    destruct (get_state_code tbl (value colA)) as [cb|e];
      [| exists e; reflexivity].
    rewrite bind_Ok.
    destruct (negb (String.eqb cb "")); rewrite ?bind_Ok; cbn [app];
      destruct (Hscan []) as [e He]; exists e; rewrite He; reflexivity.
  - apply index_Ok in E1. contradiction.
Qed.

Lemma process_sheet_one_row_block_witness :
  exists e,
    process_sheet Sample.table
      (Sample.alaska :: Sample.maryland :: [Sample.continuation]) = Raise e.
Proof.
  apply (process_sheet_one_row_block Sample.table Sample.alaska
           Sample.maryland [Sample.continuation] "MD").
  - discriminate.
  - do 2 eexists. repeat split. discriminate.
Defined.

(** ** The dictionary of a sheet *)

Lemma has_key_keys (d : Dict.t) (k : string) :
  has_key d k = true <-> k ∈ Dict.keys d.
Proof.
  unfold has_key. induction d as [|[k0 v0] d IH]; cbn.
  - split; [discriminate | intros H; inversion H].
  - destruct (String.eqb k0 k) eqn:E.
    + apply String.eqb_eq in E. subst. split; [| reflexivity].
      intros _. apply elem_of_cons. left. reflexivity.
    + rewrite IH. apply String.eqb_neq in E. rewrite elem_of_cons.
      split; [auto | intros [-> | H]; [contradiction | exact H]].
Qed.

(** Storing under a key that is there leaves the keys as they are; a new
    key comes last. *)
Lemma keys_set (d : Dict.t) (k : string) (v : pyval) :
  Dict.keys (Dict.set d k v)
  = if has_key d k then Dict.keys d else Dict.keys d ++ [k].
Proof.
  unfold has_key. induction d as [|[k0 v0] d IH]; cbn; [reflexivity |].
  destruct (String.eqb k0 k) eqn:E; cbn; [reflexivity |].
  fold (Dict.keys (Dict.set d k v)). fold (Dict.keys d). rewrite IH.
  destruct (Dict.get d k); reflexivity.
Qed.

Lemma NoDup_keys_set (d : Dict.t) (k : string) (v : pyval) :
  NoDup (Dict.keys d) -> NoDup (Dict.keys (Dict.set d k v)).
Proof.
  intros H. rewrite keys_set. destruct (has_key d k) eqn:E; [exact H |].
  apply NoDup_app. split; [exact H |]. split; [| apply NoDup_singleton].
  intros x Hx Hk. apply list_elem_of_singleton in Hk. subst x.
  apply has_key_keys in Hx. congruence.
Qed.

Lemma process_state_entry (tbl : gmap string string) (rows : list row)
    (code : string) (rec : Dict.t) :
  process_state tbl rows = Ok (code, rec) -> sheet_entry tbl code (VDict rec).
Proof.
  intros H. apply process_state_Ok in H.
  destruct H as (r0 & c0 & c2 & d & notes & codes & _ & _ & _ & Hg & Hd & _
                 & H).
  apply extract_deductions_shape in Hd.
  exists rec. split; [reflexivity |].
  assert (Hk : code = "" \/ exists key, tbl !! key = Some code).
  { destruct (get_state_code_Ok _ _ _ Hg) as [-> | (s & _ & Hs)]; eauto. }
  destruct H as [(_ & c1 & _ & ->) | (_ & single & married & Hb & ->)].
  - split; [| split; [exists [], []; repeat split | exact Hk]].
    exists [], [], (notes ++ [value c1]), codes, d.
    repeat (split; [first [assumption | reflexivity] |]). reflexivity.
  - split; [| split; [| exact Hk]].
    + exists single, married, notes, codes, d.
      repeat (split; [first [assumption | reflexivity] |]).
      cbn. do 2 apply perm_skip. apply perm_swap.
    + exists single, married. repeat split.
      apply (brackets_length rows ([], []) (single, married) Hb). reflexivity.
Qed.

(** The loop keeps the keys of the dictionary distinct and its entries
    well-formed. *)
Lemma scan_rows_entries (tbl : gmap string string) (rows : list row) :
  forall (states : Dict.t) (state_rows : list row) (states' : Dict.t)
         (state_rows' : list row),
    scan_rows tbl rows states state_rows = Ok (states', state_rows') ->
    NoDup (Dict.keys states)
    /\ (forall k v, Dict.get states k = Some v -> sheet_entry tbl k v) ->
    NoDup (Dict.keys states')
    /\ (forall k v, Dict.get states' k = Some v -> sheet_entry tbl k v).
Proof.
  induction rows as [|r rest IH]; intros states acc states' acc' H Hinv.
  - inversion H; subst. exact Hinv.
  - rewrite scan_rows_cons in H. bind_inv H.
    destruct (is_merged a); [inversion H; subst; exact Hinv |].
    bind_inv H. bind_inv H.
    destruct (negb (String.eqb a1 "")); [| eapply IH; eassumption].
    bind_inv H. eapply IH; [eassumption |].
    destruct acc as [|b acc]; [inversion Ha2; subst; exact Hinv |].
    bind_inv Ha2. destruct a3 as [state data]. inversion Ha2; subst.
    destruct Hinv as [Hnd Hent]. split; [apply NoDup_keys_set, Hnd |].
    intros k v Hk. rewrite get_set in Hk.
    destruct (String.eqb state k) eqn:E.
    + apply String.eqb_eq in E. subst k. inversion Hk; subst v.
      eapply process_state_entry. eassumption.
    + apply Hent. exact Hk.
Qed.

(** X14: in the dictionary [process_sheet] returns no key occurs twice, and
    every entry is a record of the shape [process_state] builds, with as
    many single as married brackets, under a key that is empty or a code of
    the table. *)
Theorem process_sheet_entries (tbl : gmap string string) (sheet : list row)
    (states : Dict.t) :
  process_sheet tbl sheet = Ok states ->
  NoDup (Dict.keys states)
  /\ (forall k v, Dict.get states k = Some v -> sheet_entry tbl k v).
Proof.
  unfold process_sheet. intros H. bind_inv H. destruct a as [states0 acc].
  bind_inv H. inversion H; subst.
  eapply scan_rows_entries; [eassumption |].
  split; [constructor | intros k v Hk; discriminate].
Qed.

Lemma process_sheet_entries_witness :
  NoDup (Dict.keys maryland_states)
  /\ (forall k v, Dict.get maryland_states k = Some v ->
                  sheet_entry Sample.table k v).
Proof.
  apply (process_sheet_entries Sample.table maryland_sheet). reflexivity.
Defined.

(** A key of the dictionary stays one to the end of the loop. *)
Lemma scan_rows_mono (tbl : gmap string string) (rows : list row) (k : string) :
  forall (states : Dict.t) (state_rows : list row) (states' : Dict.t)
         (state_rows' : list row),
    scan_rows tbl rows states state_rows = Ok (states', state_rows') ->
    has_key states k = true -> has_key states' k = true.
Proof.
  induction rows as [|r rest IH]; intros states acc states' acc' H Hk.
  - inversion H; subst. exact Hk.
  - rewrite scan_rows_cons in H. bind_inv H.
    destruct (is_merged a); [inversion H; subst; exact Hk |].
    bind_inv H. bind_inv H.
    destruct (negb (String.eqb a1 "")); [| eapply IH; eassumption].
    bind_inv H. eapply IH; [eassumption |].
    destruct acc as [|b acc]; [inversion Ha2; subst; exact Hk |].
    bind_inv Ha2. destruct a3 as [state data]. inversion Ha2; subst.
    unfold has_key in *. rewrite get_set.
    destruct (String.eqb state k); [reflexivity | exact Hk].
Qed.

(** From an accumulator that starts with a row that is no state-start
    row, the first record stored goes under the empty key. *)
Lemma scan_rows_header (tbl : gmap string string) (rows : list row) :
  forall (state_rows : list row) (states' : Dict.t) (state_rows' : list row),
    block_code tbl state_rows "" ->
    scan_rows tbl rows [] state_rows = Ok (states', state_rows') ->
    states' <> [] ->
    has_key states' "" = true.
Proof.
  induction rows as [|r rest IH]; intros acc states' acc' Hb H Hne.
  - inversion H; subst. contradiction.
  - rewrite scan_rows_cons in H. bind_inv H.
    destruct (is_merged a); [inversion H; subst; contradiction |].
    bind_inv H. bind_inv H.
    destruct (negb (String.eqb a1 "")).
    + bind_inv H. destruct Hb as (r0 & c0 & Hr0 & Hc0 & Hg).
      destruct acc as [|b acc]; [discriminate |].
      bind_inv Ha2. destruct a3 as [state data]. inversion Ha2; subst.
      apply process_state_Ok in Ha3.
      destruct Ha3 as (r0' & c0' & _ & _ & _ & _ & Hr0' & Hc0' & _ & Hg' & _).
      assert (r0' = r0) as -> by exact (Some_fun _ _ _ Hr0' Hr0).
      assert (c0' = c0) as -> by exact (Some_fun _ _ _ Hc0' Hc0).
      assert (state = "") as -> by congruence.
      eapply scan_rows_mono; [eassumption | reflexivity].
    + eapply IH; [| eassumption | exact Hne].
      destruct Hb as (r0 & c0 & Hr0 & Hc0 & Hg).
      exists r0, c0. repeat split; [| assumption | assumption].
      destruct acc; [discriminate | exact Hr0].
Qed.

(** X15: the rows above the first state are a block like another.  When
    the first row of a sheet is no state-start row and [process_sheet]
    returns, its result has an entry under the empty key. *)
Theorem process_sheet_header_entry (tbl : gmap string string) (h : row)
    (rest : list row) (states : Dict.t) :
  continuation_row tbl h ->
  process_sheet tbl (h :: rest) = Ok states ->
  has_key states "" = true.
Proof.
  intros Hh H. unfold process_sheet in H.
  rewrite (scan_rows_continuation tbl h) in H by exact Hh. cbn [app] in H.
  bind_inv H. destruct a as [states0 acc]. bind_inv H. inversion H; subst.
  eapply (scan_rows_header tbl rest [h]); [| eassumption |].
  - destruct Hh as (c1 & colA & _ & _ & Hc0 & Hg).
    exists h, colA. repeat split; assumption.
  - intros ->. discriminate.
Qed.

Lemma process_sheet_header_entry_witness :
  has_key header_states "" = true.
Proof.
  apply (process_sheet_header_entry Sample.table header_row
           (header_row :: maryland_sheet)).
  - do 2 eexists. repeat split.
  - reflexivity.
Defined.

Example header_sheet_keys : Dict.keys header_states = [""; "MD"].
Proof. reflexivity. Qed.

(** ** The year driver, further *)

(** X16: a sheet name looks like a year when it is "20" followed by two
    characters, whatever they are; digits are not asked for. *)
Theorem looks_like_year_iff (name : string) :
  looks_like_year name = true
  <-> exists a b, name = String "2" (String "0" (String a (String b ""))).
Proof.
  split.
  - destruct name as [|c0 [|c1 [|c2 [|c3 [|c4 name]]]]];
      try discriminate.
    unfold looks_like_year. cbn [String.length Nat.eqb andb String.prefix].
    destruct (ascii_dec "2" c0) as [<-|]; [| discriminate].
    destruct (ascii_dec "0" c1) as [<-|]; [| discriminate].
    intros _. eauto.
  - intros (a & b & ->). reflexivity.
Qed.

Example looks_like_year_letters : looks_like_year "20th" = true.
Proof. reflexivity. Qed.

Lemma no_exit_Ok {A : Type} (a : A) : no_exit (Ok a).
Proof. intros z. discriminate. Qed.

Lemma no_exit_bind {A B : Type} (m : result A) (k : A -> result B) :
  no_exit m -> (forall a, no_exit (k a)) -> no_exit (m ≫= k).
Proof.
  intros Hm Hk z. destruct m as [a|e]; [apply Hk |].
  intros H. inversion H; subst. exact (Hm z eq_refl).
Qed.

(** Closes a goal [no_exit m] where [m] is made of binds and tests over
    runs known not to exit. *)
Ltac no_exit :=
  repeat first
    [ assumption
    | apply no_exit_Ok
    | apply no_exit_bind; [| intros ?]
    | match goal with
      | |- no_exit (if ?b then _ else _) => destruct b
      | |- no_exit (match ?x with _ => _ end) => destruct x
      | |- no_exit (Raise _) => intros ?; discriminate
      end ].

Lemma no_exit_index {A : Type} (xs : list A) (i : nat) : no_exit (index xs i).
Proof. unfold index. no_exit. Qed.

Lemma no_exit_get_state_code (tbl : gmap string string) (v : pyval) :
  no_exit (get_state_code tbl v).
Proof. unfold get_state_code. no_exit. Qed.

Lemma no_exit_clean_deduction (v : pyval) : no_exit (clean_deduction v).
Proof. unfold clean_deduction. no_exit. Qed.

Lemma no_exit_extract_deductions (r : row) : no_exit (extract_deductions r).
Proof.
  pose proof no_exit_clean_deduction. pose proof (no_exit_index r).
  unfold extract_deductions, deduction_at.
  repeat (apply no_exit_bind; [auto using no_exit_bind | intros ?]).
  apply no_exit_Ok.
Qed.

Lemma no_exit_extract_codes (r : row) : no_exit (extract_codes r).
Proof.
  unfold extract_codes. apply no_exit_bind; [apply no_exit_index | intros c0].
  destruct (value c0); try apply no_exit_Ok.
  destruct (PyStr.contains "(" s); [| apply no_exit_Ok].
  apply no_exit_bind; [apply no_exit_index | intros ?; apply no_exit_Ok].
Qed.

Lemma no_exit_for_each {A S : Type} (step : S -> A -> result S)
    (xs : list A) :
  (forall acc x, no_exit (step acc x)) ->
  forall acc, no_exit (for_each step acc xs).
Proof.
  intros Hs. induction xs as [|x xs IH]; intros acc; cbn [for_each].
  - apply no_exit_Ok.
  - apply no_exit_bind; [apply Hs | intros ?; apply IH].
Qed.

Lemma no_exit_extract_notes (row1 : row) (row2 : option row) :
  no_exit (extract_notes row1 row2).
Proof.
  unfold extract_notes. apply no_exit_for_each. intros acc [r|]; cbn.
  - apply no_exit_bind; [apply no_exit_extract_codes |].
    intros ?. apply no_exit_Ok.
  - intros z. discriminate.
Qed.

Lemma no_exit_bracket_step (acc : list pyval * list pyval) (r : row) :
  no_exit (bracket_step acc r).
Proof.
  unfold bracket_step. destruct (existsb truthy (key_values r));
    [| apply no_exit_Ok].
  repeat (apply no_exit_bind; [apply no_exit_index | intros ?]).
  apply no_exit_Ok.
Qed.

Lemma no_exit_process_state (tbl : gmap string string) (rows : list row) :
  no_exit (process_state tbl rows).
Proof.
  unfold process_state. rewrite second_row.
  apply no_exit_bind; [apply no_exit_index | intros r0].
  apply no_exit_bind; [apply no_exit_index | intros c0].
  apply no_exit_bind; [apply no_exit_get_state_code | intros code].
  apply no_exit_bind; [apply no_exit_extract_deductions | intros d].
  rewrite bind_Ok.
  apply no_exit_bind; [apply no_exit_extract_notes | intros [notes codes]].
  apply no_exit_bind; [apply no_exit_index | intros c2].
  destruct (is_merged c2).
  - apply no_exit_bind; [apply no_exit_index | intros c1]. apply no_exit_Ok.
  - apply no_exit_bind;
      [apply no_exit_for_each, no_exit_bracket_step | intros [s m]].
    apply no_exit_Ok.
Qed.

Lemma no_exit_scan_rows (tbl : gmap string string) (rows : list row) :
  forall (states : Dict.t) (state_rows : list row),
    no_exit (scan_rows tbl rows states state_rows).
Proof.
  induction rows as [|r rest IH]; intros states acc.
  - apply no_exit_Ok.
  - rewrite scan_rows_cons.
    apply no_exit_bind; [apply no_exit_index | intros c1].
    destruct (is_merged c1); [apply no_exit_Ok |].
    apply no_exit_bind; [apply no_exit_index | intros colA].
    apply no_exit_bind; [apply no_exit_get_state_code | intros code].
    destruct (negb (String.eqb code "")); [| apply IH].
    apply no_exit_bind; [| intros ?; apply IH].
    destruct acc; [apply no_exit_Ok |].
    apply no_exit_bind; [apply no_exit_process_state | intros [state data]].
    apply no_exit_Ok.
Qed.

Lemma no_exit_process_sheet (tbl : gmap string string) (sheet : list row) :
  no_exit (process_sheet tbl sheet).
Proof.
  unfold process_sheet.
  apply no_exit_bind; [apply no_exit_scan_rows | intros [states acc]].
  apply no_exit_bind; [| intros ?; apply no_exit_Ok].
  unfold Dict.item. destruct (Dict.get states "MD");
    [apply no_exit_Ok | intros z; discriminate].
Qed.

Lemma no_exit_getitem (wb : workbook) (name : string) :
  no_exit (getitem wb name).
Proof.
  induction wb as [|[title sheet] wb IH]; cbn [getitem].
  - intros z. discriminate.
  - destruct (String.eqb title name); [apply no_exit_Ok | exact IH].
Qed.

(** X17: from the loaded workbook to the call of [write_json] (the
    command line and the loading of the file are not part of the model),
    [main] calls [sys.exit] when no sheet name looks like a year, and then
    with status 1; with a name that does, no step of the processing of the
    sheet calls [sys.exit], whatever else it raises. *)
Theorem main_exit (tbl : gmap string string) (wb : workbook) (status : Z) :
  main tbl wb = Raise (SystemExit status)
  <-> status = 1%Z
      /\ forall n, n ∈ sheetnames wb -> looks_like_year n = false.
Proof.
  unfold main.
  pose proof (sort_desc_head (List.filter looks_like_year (sheetnames wb)))
    as Hs.
  destruct (sort_desc (List.filter looks_like_year (sheetnames wb)))
    as [|top rest].
  - split.
    + intros H. inversion H; subst. split; [reflexivity |].
      intros n Hn. destruct (looks_like_year n) eqn:E; [| reflexivity].
      assert (Hin : n ∈ List.filter looks_like_year (sheetnames wb)).
      { apply list_elem_of_In, filter_In. split; [| exact E].
        apply list_elem_of_In. exact Hn. }
      rewrite Hs in Hin. inversion Hin.
    + intros [-> _]. reflexivity.
  - destruct Hs as [Htop _].
    apply list_elem_of_In, filter_In in Htop as [Htop Hy].
    apply list_elem_of_In in Htop. split.
    + intros H. exfalso. revert H.
      apply no_exit_bind; [apply no_exit_getitem | intros sheet].
      apply no_exit_bind; [apply no_exit_process_sheet | intros states].
      apply no_exit_Ok.
    + intros [_ H]. rewrite (H top Htop) in Hy. discriminate.
Qed.

(** ** Rows of a block beyond the second *)

(** X18: the code, the notes, the note codes and the deductions of a record
    come from the first two rows of the block: two blocks that begin with
    the same two rows give the same ones, whatever rows follow. *)
Theorem process_state_first_two_rows (tbl : gmap string string)
    (r0 r1 : row) (rest rest' : list row) (code code' : string)
    (rec rec' : Dict.t) :
  process_state tbl (r0 :: r1 :: rest) = Ok (code, rec) ->
  process_state tbl (r0 :: r1 :: rest') = Ok (code', rec') ->
  code = code'
  /\ Dict.get rec "notes" = Dict.get rec' "notes"
  /\ Dict.get rec "note_codes" = Dict.get rec' "note_codes"
  /\ Dict.get rec "deductions" = Dict.get rec' "deductions".
Proof.
  intros H H'. apply process_state_Ok in H, H'.
  destruct H as (x0 & c0 & c2 & d & notes & codes & Hr0 & Hc0 & Hc2 & Hg & Hd
                 & Hn & H).
  destruct H' as (x0' & c0' & c2' & d' & notes' & codes' & Hr0' & Hc0' & Hc2'
                  & Hg' & Hd' & Hn' & H').
  cbn in Hr0, Hr0', Hn, Hn'.
  assert (x0 = r0) as -> by congruence.
  assert (x0' = r0) as -> by congruence.
  assert (c0' = c0) as -> by exact (Some_fun _ _ _ Hc0' Hc0).
  assert (c2' = c2) as -> by exact (Some_fun _ _ _ Hc2' Hc2).
  assert (code' = code) as -> by congruence.
  assert (d' = d) as -> by congruence.
  assert (notes' = notes /\ codes' = codes) as [-> ->]
      by (split; congruence).
  destruct H as [(Hm & c1 & Hc1 & ->) | (Hm & s & m & _ & ->)];
    destruct H' as [(Hm' & c1' & Hc1' & ->) | (Hm' & s' & m' & _ & ->)];
    try congruence.
  - assert (c1' = c1) as -> by exact (Some_fun _ _ _ Hc1' Hc1).
    repeat split.
  - repeat split.
Qed.

Lemma process_state_first_two_rows_witness :
  "MD" = "MD"
  /\ Dict.get maryland_record "notes"
     = Dict.get (record_of (process_state Sample.table
                              (maryland_block ++ [Sample.empty_row]))) "notes"
  /\ Dict.get maryland_record "note_codes"
     = Dict.get (record_of (process_state Sample.table
                              (maryland_block ++ [Sample.empty_row])))
         "note_codes"
  /\ Dict.get maryland_record "deductions"
     = Dict.get (record_of (process_state Sample.table
                              (maryland_block ++ [Sample.empty_row])))
         "deductions".
Proof.
  apply (process_state_first_two_rows Sample.table Sample.maryland
           Sample.continuation [] [Sample.empty_row]); reflexivity.
Defined.

(** ** Names with a footnote marker after a space *)

Lemma length_append (a b : string) :
  String.length (a ++ b) = String.length a + String.length b.
Proof.
  induction a as [|x a IH]; [reflexivity |].
  rewrite append_cons. cbn [String.length]. rewrite IH. reflexivity.
Qed.

Lemma length_spaces (n : nat) : String.length (spaces n) = n.
Proof.
  induction n as [|n IH]; [reflexivity | cbn; rewrite IH; reflexivity].
Qed.

Lemma spaces_no_paren (n : nat) : has_char "(" (spaces n) = false.
Proof. induction n as [|n IH]; [reflexivity | exact IH]. Qed.

Lemma spaces_key (n : nat) :
  remove_char "." (PyStr.lower (spaces n)) = spaces n.
Proof.
  induction n as [|n IH]; [reflexivity |].
  cbn [spaces PyStr.lower]. change (PyStr.lower_char " ") with " "%char.
  cbn [remove_char]. change (Ascii.eqb " " ".") with false. cbn iota.
  rewrite IH. reflexivity.
Qed.

(** The key of a name followed by spaces and a parenthesis keeps the
    spaces. *)
Lemma safe_value_spaced_marker (name marker : string) (n : nat) :
  has_char "(" name = false ->
  safe_value (name ++ spaces n ++ String "(" marker)
  = (safe_value name ++ spaces n)%string.
Proof.
  intros H. rewrite <- append_assoc, safe_value_marker
    by (rewrite has_char_app, H, spaces_no_paren; reflexivity).
  rewrite lower_app, remove_char_app, spaces_key.
  rewrite (safe_value_plain name H). reflexivity.
Qed.

(** The keys of a table are not longer than some bound. *)
Lemma keys_bounded (tbl : gmap string string) :
  exists bound, forall k, is_Some (tbl !! k) -> String.length k <= bound.
Proof.
  induction tbl as [|k v m Hk [bound IH]] using map_ind.
  - exists 0. intros k [v Hv]. rewrite lookup_empty in Hv. discriminate.
  - exists (Nat.max (String.length k) bound). intros j Hj.
    apply lookup_insert_is_Some in Hj as [<- | [_ Hj]]; [lia |].
    specialize (IH j Hj). lia.
Qed.

(** C6 (the code departs from it): a footnote marker that follows the name
    after white space is not dropped cleanly.  The key is cut at the
    parenthesis and not trimmed, so it keeps the spaces that stood before
    the parenthesis.  Whatever the table, every name it knows has such a
    variant, with spaces enough before the marker, that resolves to the
    empty code and not to the code of the name; with a table none of whose
    keys ends in a space, one space is enough, as in "Alabama (a)".  On the
    sample table "Alabama" and "ALABAMA." resolve to AL and "Alabama (a)"
    to the empty code. *)
Theorem get_state_code_spaced_marker :
  (forall (tbl : gmap string string) (name marker : string) (n : nat),
      name <> "" ->
      PyStr.contains "(" name = false ->
      get_state_code tbl (VStr (name ++ spaces n ++ String "(" marker))
      = Ok (default "" (tbl !! (safe_value name ++ spaces n)%string)))
  /\ (forall (tbl : gmap string string) (name marker code : string),
        get_state_code tbl (VStr name) = Ok code ->
        code <> "" ->
        PyStr.contains "(" name = false ->
        exists n,
          get_state_code tbl (VStr (name ++ spaces (S n) ++ String "(" marker))
          = Ok ""
          /\ get_state_code tbl
               (VStr (name ++ spaces (S n) ++ String "(" marker))
             <> get_state_code tbl (VStr name))
  /\ (forall (tbl : gmap string string) (name marker code : string),
        (forall k x, is_Some (tbl !! k) -> k <> (x ++ " ")%string) ->
        get_state_code tbl (VStr name) = Ok code ->
        code <> "" ->
        PyStr.contains "(" name = false ->
        get_state_code tbl (VStr (name ++ String " " (String "(" marker)))
        = Ok ""
        /\ get_state_code tbl
             (VStr (name ++ String " " (String "(" marker)))
           <> get_state_code tbl (VStr name))
  /\ get_state_code Sample.table (VStr "Alabama") = Ok "AL"
  /\ get_state_code Sample.table (VStr "ALABAMA.") = Ok "AL"
  /\ safe_value "Alabama (a)" = "alabama "
  /\ get_state_code Sample.table (VStr "Alabama (a)") = Ok "".
Proof.
  assert (Hkey : forall (tbl : gmap string string) (name marker : string)
                        (n : nat),
             name <> "" ->
             PyStr.contains "(" name = false ->
             get_state_code tbl
               (VStr (name ++ spaces n ++ String "(" marker))
             = Ok (default "" (tbl !! (safe_value name ++ spaces n)%string))).
  { intros tbl name marker n Hne Hp. rewrite contains_char in Hp.
    rewrite get_state_code_str by (apply app_not_empty; exact Hne).
    rewrite (safe_value_spaced_marker name marker n Hp). reflexivity. }
  assert (Hname : forall (tbl : gmap string string) (name code : string),
             get_state_code tbl (VStr name) = Ok code -> code <> "" ->
             name <> "").
  { intros tbl name code H Hc ->. cbn in H. congruence. }
  split; [exact Hkey |]. split; [| split; [| repeat split]].
  - intros tbl name marker code Hg Hc Hp.
    destruct (keys_bounded tbl) as [bound Hb]. exists bound.
    assert (Hn : get_state_code tbl
                   (VStr (name ++ spaces (S bound) ++ String "(" marker))
                 = Ok "").
    { rewrite Hkey by eauto.
      destruct (tbl !! (safe_value name ++ spaces (S bound))%string)
        as [c|] eqn:E; [| reflexivity].
      assert (Hl : String.length (safe_value name ++ spaces (S bound))
                   <= bound) by (apply Hb; eauto).
      rewrite length_append, length_spaces in Hl. lia. }
    split; [exact Hn |]. rewrite Hn, Hg. congruence.
  - intros tbl name marker code Htrim Hg Hc Hp.
    assert (Hn : get_state_code tbl
                   (VStr (name ++ String " " (String "(" marker)))
                 = Ok "").
    { change (name ++ String " " (String "(" marker))%string
        with (name ++ spaces 1 ++ String "(" marker)%string.
      rewrite Hkey by eauto.
      destruct (tbl !! (safe_value name ++ spaces 1)%string) as [c|] eqn:E;
        [| reflexivity].
      exfalso. apply (Htrim (safe_value name ++ spaces 1)%string
                        (safe_value name)); [eauto | reflexivity]. }
    split; [exact Hn |]. rewrite Hn, Hg. congruence.
Qed.
